(** * Cloudflare speed-test extension: retry, classification and history core

    A shallow embedding of the background service worker
    (categorizeError, persistResult, startCloudflareSpeedTest and the
    message listener) and of the speed-test wrapper (createSpeedTest),
    followed by the properties of the retry / validation core.

    Conventions of the embedding:
    - JavaScript values are the data values of [JS.JSValue]; numbers are
      IEEE-754 binary64 ([float]), as in JavaScript;
    - strings are sequences of 8-bit code units (Latin-1);
    - the counters of STATE (retryCount, maxRetries, backoffDelay) are
      small integers, which doubles represent exactly: they are in [Z];
      [retryCount] is never negative (see [reachable_well_configured]),
      so the exponent of [Math.pow(2, retryCount - 1)] is a natural
      number;
    - a [throw] is an abrupt completion carrying the thrown value;
    - the mutable globals and the browser (outgoing messages, timers,
      storage area, console, engine) form one [World] that is threaded
      through a state-and-exception monad;
    - what the browser and the engine decide during an event (online
      status, clock, storage failures, a throwing engine) is the [Env]
      of that event;
    - the callbacks of [chrome.storage.local.get] and [set] run within
      the event that issued them: one persistence is one step. *)

From Stdlib Require Import Floats.PrimFloat.
From Stdlib Require Import Bool Ascii String List ZArith Lia DecimalString.
Import ListNotations.

Local Open Scope string_scope.
#[local] Set Warnings "-register-all".

(* ================================================================== *)
(** ** JavaScript values and the operators the sources use *)

Module JS.

Inductive JSValue : Type :=
| JUndefined
| JNull
| JBool (b : bool)
| JNumber (f : float)
| JString (s : string)
| JArray (elems : list JSValue)
| JObject (props : list (string * JSValue)).

(** Completion of an evaluation: a value, or a thrown value. *)
Inductive completion (A : Type) : Type :=
| Normal (a : A)
| Throw (e : JSValue).
Arguments Normal {A} a.
Arguments Throw {A} e.

Definition cbind {A B} (c : completion A) (k : A -> completion B)
  : completion B :=
  match c with
  | Normal a => k a
  | Throw e => Throw e
  end.

Definition TypeError (msg : string) : JSValue :=
  JObject [("name", JString "TypeError"); ("message", JString msg)].

(** [typeof v] *)
Definition typeof (v : JSValue) : string :=
  match v with
  | JUndefined => "undefined"
  | JNull => "object"
  | JBool _ => "boolean"
  | JNumber _ => "number"
  | JString _ => "string"
  | JArray _ => "object"
  | JObject _ => "object"
  end.

(** ToBoolean: what [if (v)], [!v], [v && ...], [v || ...] and
    [v ? a : b] test. *)
Definition truthy (v : JSValue) : bool :=
  match v with
  | JUndefined | JNull => false
  | JBool b => b
  | JNumber f => negb (is_zero f || is_nan f)
  | JString s => negb (s =? "")
  | JArray _ | JObject _ => true
  end.

(** What [??] and [?.] test. *)
Definition nullish (v : JSValue) : bool :=
  match v with
  | JUndefined | JNull => true
  | _ => false
  end.

(** [a ?? b] and [a || b]; the right operands in the sources are
    literals, so evaluating them eagerly changes nothing. *)
Definition coalesce (a b : JSValue) : JSValue := if nullish a then b else a.
Definition or_else (a b : JSValue) : JSValue := if truthy a then a else b.

Fixpoint lookup (key : string) (props : list (string * JSValue)) : JSValue :=
  match props with
  | [] => JUndefined
  | (k, v) :: rest => if k =? key then v else lookup key rest
  end.

(** [v.key] for the property names the sources read (message, name,
    download, results, type): none is an index, [length] or a built-in
    method, so primitives and arrays answer [undefined]; reading a
    property of [null] or [undefined] throws. *)
Definition get (v : JSValue) (key : string) : completion JSValue :=
  match v with
  | JUndefined | JNull =>
      Throw (TypeError ("Cannot read properties of null or undefined: " ++ key))
  | JObject props => Normal (lookup key props)
  | _ => Normal JUndefined
  end.

(** [Array.isArray(v)] and [Number.isFinite(v)] *)
Definition Array_isArray (v : JSValue) : bool :=
  match v with JArray _ => true | _ => false end.

Definition Number_isFinite (v : JSValue) : bool :=
  match v with JNumber f => is_finite f | _ => false end.

(** [String.prototype.toLowerCase] on Latin-1 code units: A-Z and the
    accented capitals 0xC0-0xDE (except the multiplication sign 0xD7)
    move up by 32. *)
Definition lower_char (c : ascii) : ascii :=
  let n := N_of_ascii c in
  if ((65 <=? n) && (n <=? 90) ||
      (192 <=? n) && (n <=? 222) && negb (n =? 215))%N
  then ascii_of_N (n + 32) else c.

Fixpoint toLowerCase (s : string) : string :=
  match s with
  | EmptyString => EmptyString
  | String c s' => String (lower_char c) (toLowerCase s')
  end.

(** [s.includes(sub)] *)
Fixpoint includes (s sub : string) : bool :=
  if prefix sub s then true
  else match s with
       | EmptyString => false
       | String _ s' => includes s' sub
       end.

(** [v.toLowerCase()]: only strings have the method; on any other
    non-nullish value the callee is [undefined] and the call throws. *)
Definition call_toLowerCase (v : JSValue) : completion JSValue :=
  match v with
  | JString s => Normal (JString (toLowerCase s))
  | _ => Throw (TypeError "toLowerCase is not a function")
  end.

(** [obj?.key?.toLowerCase()]: a nullish [obj] or a nullish [obj.key]
    short-circuits the rest of the chain to [undefined]. *)
Definition chain_toLowerCase (obj : JSValue) (key : string)
  : completion JSValue :=
  if nullish obj then Normal JUndefined
  else cbind (get obj key) (fun v =>
       if nullish v then Normal JUndefined else call_toLowerCase v).

(** The receiver of [.includes(...)] and the operand of [=== '...']. *)
Definition as_string (v : JSValue) : completion string :=
  match v with
  | JString s => Normal s
  | _ => Throw (TypeError "includes is not a function")
  end.

(** [v === 'literal'], as in the [case] labels of a [switch]. *)
Definition strict_equals (v : JSValue) (literal : string) : bool :=
  match v with
  | JString s => s =? literal
  | _ => false
  end.

(** [Array.prototype.filter] with a callback that may throw. *)
Fixpoint filter_c (p : JSValue -> completion bool) (l : list JSValue)
  : completion (list JSValue) :=
  match l with
  | [] => Normal []
  | x :: rest =>
      cbind (p x) (fun keep =>
      cbind (filter_c p rest) (fun rest' =>
      Normal (if keep then x :: rest' else rest')))
  end.

(** Decimal rendering of an integer, for template strings. *)
Definition string_of_Z (z : Z) : string :=
  NilZero.string_of_int (Z.to_int z).

End JS.
Import JS.


(* ================================================================== *)
(** ** The service worker's globals and its browser environment *)

Module Runtime.

(** [const STATE = {...}] of the service worker. [currentTest] holds
    the wrapper instance, identified by its creation number. *)
Record State : Type := mkState {
  testRunning : bool;
  lastResult : JSValue;
  currentTest : option nat;
  retryCount : Z;
  maxRetries : Z;
  backoffDelay : Z
}.

Inductive Level : Type := log | warn | error.

Record World : Type := mkWorld {
  STATE : State;
  sent : list JSValue;                 (* chrome.runtime.sendMessage, oldest first *)
  timers : list Z;                     (* pending setTimeout(startCloudflareSpeedTest), in ms *)
  created : nat;                       (* createSpeedTest calls so far *)
  engine_plays : nat;                  (* engine.play() calls so far *)
  storage : list (string * JSValue);   (* chrome.storage.local *)
  console : list (Level * string)
}.

(** What the browser and the engine decide during one event. *)
Record Env : Type := mkEnv {
  navigator_onLine : bool;
  Date_now : float;
  storage_get_fails : bool;            (* chrome.runtime.lastError set after get *)
  storage_set_fails : bool;            (* chrome.runtime.lastError set after set *)
  engine_play_throws : option JSValue  (* value thrown while starting the engine *)
}.

Definition M (A : Type) : Type := World -> completion A * World.

Definition ret {A} (a : A) : M A := fun w => (Normal a, w).

Definition bind {A B} (m : M A) (k : A -> M B) : M B :=
  fun w => match m w with
           | (Normal a, w') => k a w'
           | (Throw e, w') => (Throw e, w')
           end.

Definition lift {A} (c : completion A) : M A := fun w => (c, w).

Definition throw {A} (e : JSValue) : M A := fun w => (Throw e, w).

(** [try { body } catch (e) { handler }] *)
Definition try_catch {A} (body : M A) (handler : JSValue -> M A) : M A :=
  fun w => match body w with
           | (Throw e, w') => handler e w'
           | r => r
           end.

Definition get_STATE : M State := fun w => (Normal (STATE w), w).

Definition modify_STATE (f : State -> State) : M unit :=
  fun w => (Normal tt,
            mkWorld (f (STATE w)) (sent w) (timers w) (created w)
                    (engine_plays w) (storage w) (console w)).

Definition set_testRunning (b : bool) : M unit :=
  modify_STATE (fun s => mkState b (lastResult s) (currentTest s)
                                 (retryCount s) (maxRetries s) (backoffDelay s)).
Definition set_lastResult (v : JSValue) : M unit :=
  modify_STATE (fun s => mkState (testRunning s) v (currentTest s)
                                 (retryCount s) (maxRetries s) (backoffDelay s)).
Definition set_currentTest (t : option nat) : M unit :=
  modify_STATE (fun s => mkState (testRunning s) (lastResult s) t
                                 (retryCount s) (maxRetries s) (backoffDelay s)).
Definition set_retryCount (n : Z) : M unit :=
  modify_STATE (fun s => mkState (testRunning s) (lastResult s) (currentTest s)
                                 n (maxRetries s) (backoffDelay s)).

(** [chrome.runtime.sendMessage(m)] *)
Definition sendMessage (m : JSValue) : M unit :=
  fun w => (Normal tt,
            mkWorld (STATE w) (sent w ++ [m]) (timers w) (created w)
                    (engine_plays w) (storage w) (console w)).

(** [setTimeout(() => startCloudflareSpeedTest(), delay)] *)
Definition setTimeout (delay : Z) : M unit :=
  fun w => (Normal tt,
            mkWorld (STATE w) (sent w) (timers w ++ [delay]) (created w)
                    (engine_plays w) (storage w) (console w)).

Definition set_timers (ts : list Z) : M unit :=
  fun w => (Normal tt,
            mkWorld (STATE w) (sent w) ts (created w)
                    (engine_plays w) (storage w) (console w)).

(** A new wrapper instance; answers its creation number. *)
Definition new_instance : M nat :=
  fun w => (Normal (created w),
            mkWorld (STATE w) (sent w) (timers w) (S (created w))
                    (engine_plays w) (storage w) (console w)).

(** [engine = new SpeedTest(config); ...; engine.play()] *)
Definition engine_play (env : Env) : M unit :=
  fun w =>
    let w' := mkWorld (STATE w) (sent w) (timers w) (created w)
                      (S (engine_plays w)) (storage w) (console w) in
    match engine_play_throws env with
    | Some e => (Throw e, w')
    | None => (Normal tt, w')
    end.

Definition console_ (l : Level) (text : string) : M unit :=
  fun w => (Normal tt,
            mkWorld (STATE w) (sent w) (timers w) (created w)
                    (engine_plays w) (storage w) (console w ++ [(l, text)])).

(** The object a [chrome.storage.local.get(keys, ...)] callback
    receives: the requested keys that are present. *)
Definition storage_get (keys : list string) : M JSValue :=
  fun w => (Normal (JObject
              (filter (fun kv => existsb (String.eqb (fst kv)) keys) (storage w))),
            w).

(** [chrome.storage.local.set({key: v}, ...)], when it succeeds. *)
Definition storage_set (key : string) (v : JSValue) : M unit :=
  fun w => (Normal tt,
            mkWorld (STATE w) (sent w) (timers w) (created w) (engine_plays w)
                    ((key, v) :: filter (fun kv => negb (fst kv =? key)) (storage w))
                    (console w)).

End Runtime.
Import Runtime.

Declare Scope js_scope.
Delimit Scope js_scope with js.
Notation "x <- c ;; k" := (bind c (fun x => k))
  (at level 61, c at next level, right associativity) : js_scope.
Notation "c ;; k" := (bind c (fun _ => k))
  (at level 61, right associativity) : js_scope.
Local Open Scope js_scope.

(* ================================================================== *)
(** ** The speed-test wrapper (createSpeedTest) *)

Module Wrapper.

(** What [results.getSummary()] of the engine answers: each figure is
    a number or absent. Bandwidths are in bits per second. *)
Record Summary : Type := mkSummary {
  s_download : option float;
  s_upload : option float;
  s_latency : option float;
  s_jitter : option float;
  s_downLoadedLatency : option float;
  s_upLoadedLatency : option float
}.

(** The [finalResults] object handed to [onComplete]. *)
Record FinalResults : Type := mkFinalResults {
  download : JSValue;
  upload : JSValue;
  latency : JSValue;
  jitter : JSValue;
  downLoadedLatency : JSValue;
  upLoadedLatency : JSValue;
  timestamp : JSValue
}.

Definition field (x : option float) : JSValue :=
  match x with
  | Some f => JNumber f
  | None => JUndefined
  end.

(** [x ? x / 1e6 : null] *)
Definition to_Mbps (x : option float) : JSValue :=
  match x with
  | Some f => if truthy (JNumber f) then JNumber (f / 1e6)%float else JNull
  | None => JNull
  end.

(** [x || null] *)
Definition or_null (x : option float) : JSValue := or_else (field x) JNull.

(** [engine.onFinish]: converts the summary and calls [onComplete]. *)
Definition finalResults (env : Env) (summary : Summary) : FinalResults :=
  {| download := to_Mbps (s_download summary);
     upload := to_Mbps (s_upload summary);
     latency := or_null (s_latency summary);
     jitter := or_null (s_jitter summary);
     downLoadedLatency := or_null (s_downLoadedLatency summary);
     upLoadedLatency := or_null (s_upLoadedLatency summary);
     timestamp := JNumber (Date_now env) |}.

Definition engine_onFinish (onComplete : FinalResults -> M unit)
           (env : Env) (summary : Summary) : M unit :=
  onComplete (finalResults env summary).

(** [engine.onError] *)
Definition engine_onError (onError : JSValue -> M unit) (err : JSValue)
  : M unit :=
  onError err.

(** [start()], with the instance's [isRunning] flag at the call. *)
Definition start (onError : JSValue -> M unit) (env : Env)
           (isRunning : bool) : M JSValue :=
  if isRunning
  then ret (JObject [("ok", JBool false); ("reason", JString "already-running")])
  else
    try_catch
      (engine_play env ;;
       ret (JObject [("ok", JBool true)]))
      (fun err =>
         m <- lift (get err "message") ;;
         onError (or_else m (JString "Failed to start speed test")) ;;
         reason <- lift (get err "message") ;;
         ret (JObject [("ok", JBool false); ("reason", reason)])).

End Wrapper.

(* ================================================================== *)
(** ** The background service worker *)

Module ServiceWorker.
Import Wrapper.

Definition initial_STATE : State :=
  {| testRunning := false;
     lastResult := JNull;
     currentTest := None;
     retryCount := 0;
     maxRetries := 3;
     backoffDelay := 1000 |}.

Definition initial_World : World :=
  {| STATE := initial_STATE; sent := []; timers := []; created := 0%nat;
     engine_plays := 0%nat; storage := []; console := [] |}.

(** The callback of [data.results.filter(...)]:
    [item && typeof item === 'object' &&
     typeof item.download === 'number' && Number.isFinite(item.download)] *)
Definition valid_item (item : JSValue) : completion bool :=
  if negb (truthy item) then Normal false
  else if negb (typeof item =? "object") then Normal false
  else cbind (get item "download") (fun d =>
       if negb (typeof d =? "number") then Normal false
       else cbind (get item "download") (fun d' =>
            Normal (Number_isFinite d'))).

(** The body of the [try] block that validates what was read. *)
Definition validate_body (data : JSValue) : completion (list JSValue) :=
  cbind (if nullish data then Normal JUndefined else get data "results")
    (fun results =>
       match results with
       | JArray elems => filter_c valid_item elems
       | _ => Normal []
       end).

(** [let prev = []; try { ... } catch (e) { prev = []; }]:
    the second component tells whether the [catch] ran. *)
Definition validate (data : JSValue) : list JSValue * bool :=
  match validate_body data with
  | Normal prev => (prev, false)
  | Throw _ => ([], true)
  end.

Definition make_entry (env : Env) (result : FinalResults) : JSValue :=
  JObject [("ts", JNumber (Date_now env));
           ("download", download result);
           ("upload", coalesce (upload result) JNull);
           ("latency", coalesce (latency result) JNull);
           ("jitter", coalesce (jitter result) JNull);
           ("units", JString "Mbps")].

Definition persistResult (env : Env) (result : FinalResults) : M unit :=
  let download := download result in
  if negb (typeof download =? "number") || negb (Number_isFinite download)
  then console_ warn "Invalid result data, skipping persistence:"
  else
    let entry := make_entry env result in
    data <- storage_get ["results"] ;;
    if storage_get_fails env
    then console_ error "Storage read error:"
    else
      let (prev, caught) := validate data in
      (if caught then console_ error "Invalid stored data, resetting:"
       else ret tt) ;;
      let next := firstn 2 (entry :: prev) in
      if storage_set_fails env
      then console_ error "Storage write error:"
      else storage_set "results" (JArray next).

Record ErrorInfo : Type := mkErrorInfo {
  type : string;
  userMessage : string
}.

(** The checks of [categorizeError], on the two lower-cased strings
    and [navigator.onLine]. *)
Definition classify (message name : string) (onLine : bool) : ErrorInfo :=
  if includes message "network" ||
     includes message "fetch" ||
     includes message "timeout" ||
     includes message "connection" ||
     (name =? "networkerror") ||
     negb onLine
  then {| type := "network";
          userMessage := "Network connection issue. Please check your internet connection." |}
  else if includes message "429" ||
          includes message "rate limit" ||
          includes message "too many requests"
  then {| type := "rate-limit";
          userMessage := "Too many requests. Please wait a moment and try again." |}
  else if includes message "cors" ||
          includes message "blocked" ||
          includes message "security"
  then {| type := "security";
          userMessage := "Connection blocked. Please check your browser settings." |}
  else {| type := "unknown";
          userMessage := "Test failed. Please try again." |}.

(** [const message = error?.message?.toLowerCase() || '';
     const name = error?.name?.toLowerCase() || '';] then the checks. *)
Definition categorizeError (env : Env) (err : JSValue) : completion ErrorInfo :=
  cbind (chain_toLowerCase err "message") (fun m =>
  cbind (as_string (or_else m (JString ""))) (fun message =>
  cbind (chain_toLowerCase err "name") (fun n =>
  cbind (as_string (or_else n (JString ""))) (fun name =>
  Normal (classify message name (navigator_onLine env)))))).

Definition done_failure (reason userMessage : string) : JSValue :=
  JObject [("type", JString "FAST_SPEED_DONE");
           ("ok", JBool false);
           ("reason", JString reason);
           ("userMessage", JString userMessage)].

Definition done_success (result : FinalResults) : JSValue :=
  JObject [("type", JString "FAST_SPEED_DONE");
           ("ok", JBool true);
           ("download", coalesce (download result) JNull);
           ("upload", coalesce (upload result) JNull);
           ("latency", coalesce (latency result) JNull);
           ("jitter", coalesce (jitter result) JNull);
           ("units", JString "Mbps")].

Definition status (text : string) : JSValue :=
  JObject [("type", JString "FAST_SPEED_STATUS"); ("status", JString text)].

(** [Math.ceil(delay / 1000)] for an integer [delay] *)
Definition ceil_seconds (delay : Z) : Z := (- ((- delay) / 1000))%Z.

Definition onComplete (env : Env) (result : FinalResults) : M unit :=
  set_testRunning false ;;
  set_currentTest None ;;
  set_retryCount 0 ;;
  set_lastResult
    (JObject [("download", coalesce (download result) JNull);
              ("upload", coalesce (upload result) JNull);
              ("latency", coalesce (latency result) JNull);
              ("jitter", coalesce (jitter result) JNull);
              ("units", JString "Mbps");
              ("ts", JNumber (Date_now env))]) ;;
  sendMessage (done_success result) ;;
  persistResult env result.

Definition onError (env : Env) (err : JSValue) : M unit :=
  set_testRunning false ;;
  set_currentTest None ;;
  console_ error "Speed test failed:" ;;
  errorInfo <- lift (categorizeError env err) ;;
  st <- get_STATE ;;
  if ((type errorInfo =? "network") || (type errorInfo =? "rate-limit"))
     && (retryCount st <? maxRetries st)%Z
  then
    set_retryCount (retryCount st + 1) ;;
    st <- get_STATE ;;
    let delay := (backoffDelay st * 2 ^ (retryCount st - 1))%Z in
    console_ log ("Retrying test in " ++ string_of_Z delay ++ "ms (attempt "
                  ++ string_of_Z (retryCount st) ++ "/"
                  ++ string_of_Z (maxRetries st) ++ ")") ;;
    sendMessage (status ("Retrying in " ++ string_of_Z (ceil_seconds delay) ++ "s...")) ;;
    setTimeout delay
  else
    set_retryCount 0 ;;
    sendMessage (done_failure (type errorInfo) (userMessage errorInfo)).

Definition startCloudflareSpeedTest (env : Env) : M unit :=
  st <- get_STATE ;;
  if testRunning st then ret tt
  else if negb (navigator_onLine env)
  then sendMessage
         (done_failure "offline"
            "No internet connection detected. Please check your connection.")
  else
    set_testRunning true ;;
    sendMessage (status "starting") ;;
    speedTest <- new_instance ;;
    set_currentTest (Some speedTest) ;;
    try_catch
      (Wrapper.start (onError env) env false ;; ret tt)
      (fun e =>
         console_ error "Failed to start test:" ;;
         set_testRunning false ;;
         set_currentTest None ;;
         errorInfo <- lift (categorizeError env e) ;;
         sendMessage (done_failure (type errorInfo) (userMessage errorInfo))).

(** The [chrome.runtime.onMessage] listener; answers the argument of
    [sendResponse] when it was called. *)
Definition onMessage (env : Env) (message : JSValue) : M (option JSValue) :=
  if negb (truthy message) then ret None
  else
    t <- lift (get message "type") ;;
    if negb (truthy t) then ret None
    else
      if strict_equals t "START_TEST" then
        st <- get_STATE ;;
        if testRunning st
        then ret (Some (JObject [("ok", JBool false);
                                 ("reason", JString "already-running")]))
        else
          startCloudflareSpeedTest env ;;
          ret (Some (JObject [("ok", JBool true)]))
      else if strict_equals t "GET_TEST_STATE" then
        st <- get_STATE ;;
        ret (Some (JObject [("running", JBool (testRunning st));
                            ("lastResult", lastResult st)]))
      else ret None.

(** The events the service worker reacts to. *)
Inductive Event : Type :=
| Message (message : JSValue)
| TimerFired (i : nat)
| EngineFinish (summary : Summary)
| EngineError (err : JSValue).

Fixpoint remove_nth {A} (i : nat) (l : list A) : list A :=
  match l, i with
  | [], _ => []
  | _ :: rest, O => rest
  | x :: rest, S i' => x :: remove_nth i' rest
  end.

Definition handle (env : Env) (ev : Event) : M (option JSValue) :=
  match ev with
  | Message message => onMessage env message
  | TimerFired i =>
      fun w =>
        if (i <? length (timers w))%nat
        then (set_timers (remove_nth i (timers w)) ;;
              startCloudflareSpeedTest env ;; ret None) w
        else (Normal None, w)
  | EngineFinish summary =>
      Wrapper.engine_onFinish (onComplete env) env summary ;; ret None
  | EngineError err =>
      Wrapper.engine_onError (onError env) err ;; ret None
  end.

(** Runs a sequence of events, each with its environment. *)
Fixpoint run (evs : list (Env * Event)) (w : World) : World :=
  match evs with
  | [] => w
  | (env, ev) :: rest => run rest (snd (handle env ev w))
  end.

End ServiceWorker.
Import Wrapper ServiceWorker.

(* ================================================================== *)
(** ** The rest of the service worker: installation and progress *)

Module Lifecycle.

(** [chrome.storage.local.remove(keys, ...)], when it succeeds. *)
Definition storage_remove (keys : list string) : M unit :=
  fun w => (Normal tt,
            mkWorld (STATE w) (sent w) (timers w) (created w) (engine_plays w)
                    (filter (fun kv => negb (existsb (String.eqb (fst kv)) keys))
                            (storage w))
                    (console w)).

(** The [chrome.runtime.onInstalled] listener. [remove_fails] tells
    whether the removal failed; its callback logs either way. *)
Definition onInstalled (remove_fails : bool) (details : JSValue) : M unit :=
  reason <- lift (get details "reason") ;;
  console_ log "fastdotcom-extension installed:" ;;
  reason <- lift (get details "reason") ;;
  if strict_equals reason "update"
  then
    (if remove_fails then ret tt else storage_remove ["testMode"]) ;;
    console_ log "Removed legacy testMode setting"
  else ret tt.

(** The object the wrapper hands to [onProgress]. *)
Record ProgressData : Type := mkProgressData {
  p_download : JSValue;
  p_upload : JSValue;
  p_latency : JSValue;
  p_jitter : JSValue;
  p_progress : JSValue;
  p_phase : JSValue;
  p_timestamp : JSValue
}.

Definition update (env : Env) (data : ProgressData) : JSValue :=
  JObject [("type", JString "FAST_SPEED_UPDATE");
           ("download", coalesce (p_download data) JNull);
           ("upload", coalesce (p_upload data) JNull);
           ("latency", coalesce (p_latency data) JNull);
           ("jitter", coalesce (p_jitter data) JNull);
           ("units", JString "Mbps");
           ("progress", coalesce (p_progress data) (JNumber 0%float));
           ("phase", coalesce (p_phase data) (JString "unknown"));
           ("ts", JNumber (Date_now env))].

(** The [onProgress] callback given to [createSpeedTest]. *)
Definition onProgress (env : Env) (data : ProgressData) : M unit :=
  sendMessage (update env data).

(** All the events of the service worker. *)
Inductive AnyEvent : Type :=
| Core (ev : Event)
| Installed (remove_fails : bool) (details : JSValue)
| EngineProgress (data : ProgressData).

Definition handle_any (env : Env) (ev : AnyEvent) : M (option JSValue) :=
  match ev with
  | Core ev => handle env ev
  | Installed remove_fails details => onInstalled remove_fails details ;; ret None
  | EngineProgress data => onProgress env data ;; ret None
  end.

Fixpoint run_any (evs : list (Env * AnyEvent)) (w : World) : World :=
  match evs with
  | [] => w
  | (env, ev) :: rest => run_any rest (snd (handle_any env ev w))
  end.

End Lifecycle.
Import Lifecycle.

(* ================================================================== *)
(** ** The rest of the wrapper: the instance behind start, pause, restart *)

Module WrapperInstance.

(** Methods called on an engine object. *)
Inductive EngineCall : Type := Play | Pause | Restart.

(** The variables closed over by [createSpeedTest]. [engine] is [null]
    or the n-th engine this instance constructed; [calls] lists the
    methods called so far, each with the engine it was called on. *)
Record Instance : Type := mkInstance {
  engine : option nat;
  constructed : nat;
  isRunning : bool;
  startTime : JSValue;
  calls : list (nat * EngineCall)
}.

Definition createSpeedTest : Instance :=
  {| engine := None; constructed := 0%nat; isRunning := false;
     startTime := JNull; calls := [] |}.

(** Where a failing start throws: in [new SpeedTest(config)], before
    [engine] is assigned, or in [engine.play()]. *)
Inductive Phase : Type := InConstructor | InPlay.

(** The instance after [start()]. *)
Definition start_instance (env : Env) (phase : Phase) (inst : Instance)
  : Instance :=
  if isRunning inst then inst
  else
    match engine_play_throws env, phase with
    | Some _, InConstructor =>
        mkInstance (engine inst) (constructed inst) false
                   (JNumber (Date_now env)) (calls inst)
    | Some _, InPlay =>
        mkInstance (Some (constructed inst)) (S (constructed inst)) false
                   (JNumber (Date_now env))
                   (calls inst ++ [(constructed inst, Play)])
    | None, _ =>
        mkInstance (Some (constructed inst)) (S (constructed inst))
                   (isRunning inst) (JNumber (Date_now env))
                   (calls inst ++ [(constructed inst, Play)])
    end.

(** [start()]: what it does to the world and answers, and what it does
    to the instance. *)
Definition start (onError : JSValue -> M unit) (env : Env) (phase : Phase)
           (inst : Instance) : M JSValue * Instance :=
  (Wrapper.start onError env (isRunning inst), start_instance env phase inst).

(** [pause()] *)
Definition pause (inst : Instance) : JSValue * Instance :=
  match engine inst with
  | Some n =>
      if isRunning inst
      then (JObject [("ok", JBool true)],
            mkInstance (engine inst) (constructed inst) false (startTime inst)
                       (calls inst ++ [(n, Pause)]))
      else (JObject [("ok", JBool false); ("reason", JString "not-running")], inst)
  | None => (JObject [("ok", JBool false); ("reason", JString "not-running")], inst)
  end.

(** The instance after [restart()]. *)
Definition restart_instance (env : Env) (phase : Phase) (inst : Instance)
  : Instance :=
  match engine inst with
  | Some n =>
      mkInstance (engine inst) (constructed inst) (isRunning inst)
                 (JNumber (Date_now env)) (calls inst ++ [(n, Restart)])
  | None => start_instance env phase inst
  end.

(** [restart()] *)
Definition restart (onError : JSValue -> M unit) (env : Env) (phase : Phase)
           (inst : Instance) : M JSValue * Instance :=
  (match engine inst with
   | Some _ => ret (JObject [("ok", JBool true)])
   | None => Wrapper.start onError env (isRunning inst)
   end,
   restart_instance env phase inst).

(** [getStatus()] *)
Definition getStatus (inst : Instance) : JSValue :=
  JObject [("isRunning", JBool (isRunning inst));
           ("hasEngine", JBool (match engine inst with Some _ => true | None => false end))].

(** [engine.onRunningChange], [engine.onFinish] and [engine.onError]
    on the instance. *)
Definition onRunningChange (running : bool) (inst : Instance) : Instance :=
  mkInstance (engine inst) (constructed inst) running (startTime inst) (calls inst).

Definition onFinish (inst : Instance) : Instance :=
  mkInstance (engine inst) (constructed inst) false (startTime inst) (calls inst).

Definition onError (inst : Instance) : Instance :=
  mkInstance (engine inst) (constructed inst) false (startTime inst) (calls inst).

(** What a user of the instance and its engine may do next. *)
Inductive Action : Type :=
| DoStart (env : Env) (phase : Phase)
| DoPause
| DoRestart (env : Env) (phase : Phase)
| RunningChange (running : bool)
| Finish
| Error.

Definition act (a : Action) (inst : Instance) : Instance :=
  match a with
  | DoStart env phase => start_instance env phase inst
  | DoPause => snd (pause inst)
  | DoRestart env phase => restart_instance env phase inst
  | RunningChange running => onRunningChange running inst
  | Finish => onFinish inst
  | Error => onError inst
  end.

Definition acts (l : list Action) (inst : Instance) : Instance :=
  fold_left (fun i a => act a i) l inst.

End WrapperInstance.

(* ================================================================== *)
(** ** The content script: accumulating readings and finishing *)

Module ContentScript.

(** A set of readings: each is a number or [null]. *)
Record Metrics : Type := mkMetrics {
  download : option float;
  upload : option float;
  latency : option float;
  jitter : option float
}.

(** The variables of the script. [active] tells that the observer, the
    two intervals and the timeout still exist, that is, that [cleanup]
    has not run; [outbox] lists the messages sent, oldest first. *)
Record Script : Type := mkScript {
  metrics : Metrics;
  lastChangeTs : float;
  sawAny : bool;
  active : bool;
  outbox : list JSValue
}.

(** What the page and the clock give during one callback:
    [extractAllMetrics()], [readUnits()] and [Date.now()]. *)
Record Reading : Type := mkReading {
  current : Metrics;
  units : string;
  now : float
}.

Definition MAX_IDLE_MS : float := 5000%float.

Definition initial (loaded_at : float) : Script :=
  {| metrics := mkMetrics None None None None;
     lastChangeTs := loaded_at; sawAny := false; active := true; outbox := [] |}.

Definition value (x : option float) : JSValue :=
  match x with
  | Some f => JNumber f
  | None => JNull
  end.

Definition message (type : string) (m : Metrics) (r : Reading) : JSValue :=
  JObject [("type", JString type);
           ("download", value (download m));
           ("upload", value (upload m));
           ("latency", value (latency m));
           ("jitter", value (jitter m));
           ("units", JString (units r));
           ("ts", JNumber (now r))].

(** [if (fresh != null) kept = fresh] *)
Definition latest (kept fresh : option float) : option float :=
  match fresh with
  | Some _ => fresh
  | None => kept
  end.

(** [if (kept == null || fresh > kept) kept = fresh], for a [fresh]
    that is a number *)
Definition best (kept : option float) (fresh : float) : option float :=
  match kept with
  | None => Some fresh
  | Some k => if (k <? fresh)%float then Some fresh else Some k
  end.

(** The callback of the MutationObserver and of the polling interval. *)
Definition observe (r : Reading) (s : Script) : Script :=
  match download (current r) with
  | Some d =>
      mkScript
        (mkMetrics (best (download (metrics s)) d)
                   (latest (upload (metrics s)) (upload (current r)))
                   (latest (latency (metrics s)) (latency (current r)))
                   (latest (jitter (metrics s)) (jitter (current r))))
        (now r) true (active s)
        (outbox s ++ [message "FAST_SPEED_UPDATE" (current r) r])
  | None => s
  end.

(** [cleanup(); sendDone();] *)
Definition finish (r : Reading) (s : Script) : Script :=
  mkScript (metrics s) (lastChangeTs s) (sawAny s) false
           (outbox s ++ [message "FAST_SPEED_DONE" (metrics s) r]).

(** The callback of the idle-check interval. *)
Definition idleCheck (r : Reading) (s : Script) : Script :=
  if sawAny s && (MAX_IDLE_MS <=? now r - lastChangeTs s)%float
  then finish r s
  else s.

Inductive Callback : Type :=
| Mutation (r : Reading)
| Poll (r : Reading)
| IdleTick (r : Reading)
| HardStop (r : Reading).

(** A callback runs only while its source exists. *)
Definition step (c : Callback) (s : Script) : Script :=
  if active s
  then match c with
       | Mutation r => observe r s
       | Poll r => observe r s
       | IdleTick r => idleCheck r s
       | HardStop r => finish r s
       end
  else s.

Definition steps (l : list Callback) (s : Script) : Script :=
  fold_left (fun s c => step c s) l s.

End ContentScript.

(* ================================================================== *)
(** ** Vocabulary of the properties *)

(** [v?.key] *)
Definition field_of (v : JSValue) (key : string) : JSValue :=
  match v with
  | JObject props => lookup key props
  | _ => JUndefined
  end.

(** An entry the history may hold: a non-null object whose [download]
    is of numeric type and finite. *)
Definition valid_entry (v : JSValue) : Prop :=
  typeof v = "object" /\ v <> JNull /\
  exists f, get v "download" = Normal (JNumber f) /\ is_finite f = true.

(** The stored history: the value under the key [results]. *)
Definition history (w : World) : JSValue := lookup "results" (storage w).

(** [FAST_SPEED_DONE] messages with the given [ok]. *)
Definition is_done (ok : bool) (m : JSValue) : bool :=
  match field_of m "type", field_of m "ok" with
  | JString t, JBool b => (t =? "FAST_SPEED_DONE") && Bool.eqb b ok
  | _, _ => false
  end.

(** A field that is absent, [null], [undefined] or a string. *)
Definition optional_string (v : JSValue) : bool :=
  match v with
  | JUndefined | JNull | JString _ => true
  | _ => false
  end.

(** The value of [v?.toLowerCase() || ''] for such a field. *)
Definition lowered (v : JSValue) : string :=
  match v with
  | JString s => toLowerCase s
  | _ => ""
  end.

Definition retryable (kind : string) : bool :=
  (kind =? "network") || (kind =? "rate-limit").

(** The delay of the retry controller in the specification's words:
    [baseDelayMs * 2^count], with [count] read before it is incremented. *)
Definition spec_delay (baseDelayMs count : Z) : Z := (baseDelayMs * 2 ^ count)%Z.

(** The error-kind to user-message table of the specification. *)
Definition message_table (kind : string) : string :=
  if kind =? "network"
  then "Network connection issue. Please check your internet connection."
  else if kind =? "rate-limit"
  then "Too many requests. Please wait a moment and try again."
  else if kind =? "security"
  then "Connection blocked. Please check your browser settings."
  else if kind =? "offline"
  then "No internet connection detected. Please check your connection."
  else if kind =? "storage"
  then "Error loading/saving data"
  else "Test failed. Please try again.".


Definition START_TEST : JSValue := JObject [("type", JString "START_TEST")].

Definition already_running : JSValue :=
  JObject [("ok", JBool false); ("reason", JString "already-running")].


(** The read-side filter applied to a stored value. *)
Definition sanitize (raw : JSValue) : list JSValue :=
  fst (validate (JObject [("results", raw)])).

Definition with_console (w : World) (l : Level) (text : string) : World :=
  mkWorld (STATE w) (sent w) (timers w) (created w) (engine_plays w)
          (storage w) (console w ++ [(l, text)]).

(** The world [onComplete] hands to [persistResult]: the run is over,
    the retry count is reset, the result is remembered and announced. *)
Definition completed (env : Env) (result : FinalResults) (w : World) : World :=
  mkWorld
    (mkState false
       (JObject [("download", coalesce (download result) JNull);
                 ("upload", coalesce (upload result) JNull);
                 ("latency", coalesce (latency result) JNull);
                 ("jitter", coalesce (jitter result) JNull);
                 ("units", JString "Mbps");
                 ("ts", JNumber (Date_now env))])
       None 0 (maxRetries (STATE w)) (backoffDelay (STATE w)))
    (sent w ++ [done_success result]) (timers w) (created w)
    (engine_plays w) (storage w) (console w).

(** The claim that a failed read is treated as an empty history: the
    persistence would go on from [prev = []] and store the new entry
    alone. *)
Definition read_error_treated_as_empty
           (env : Env) (result : FinalResults) (w : World) : Prop :=
  history (snd (persistResult env result w)) = JArray [make_entry env result].

(** Sample inputs. *)
Definition env_online : Env :=
  {| navigator_onLine := true; Date_now := 1700000000000%float;
     storage_get_fails := false; storage_set_fails := false;
     engine_play_throws := None |}.

Definition env_offline : Env :=
  {| navigator_onLine := false; Date_now := 1700000000000%float;
     storage_get_fails := false; storage_set_fails := false;
     engine_play_throws := None |}.

Definition env_read_error : Env :=
  {| navigator_onLine := true; Date_now := 1700000000000%float;
     storage_get_fails := true; storage_set_fails := false;
     engine_play_throws := None |}.

Definition result_of_download (d : JSValue) : FinalResults :=
  {| download := d; upload := JNumber 20%float; latency := JNumber 12%float;
     jitter := JNull; downLoadedLatency := JNull; upLoadedLatency := JNull;
     timestamp := JNumber 1700000000000%float |}.

Definition error_with_message (m : JSValue) : JSValue :=
  JObject [("name", JString "Error"); ("message", m)].

(** The worlds [onError] leaves behind. [failed]: the run is over and
    the failure is logged; [retry_world]: a retry is scheduled;
    [terminal_world]: the failure is reported. *)
Definition failed (w : World) : World :=
  mkWorld
    (mkState false (lastResult (STATE w)) None (retryCount (STATE w))
             (maxRetries (STATE w)) (backoffDelay (STATE w)))
    (sent w) (timers w) (created w) (engine_plays w) (storage w)
    (console w ++ [(error, "Speed test failed:")]).

Definition code_delay (w : World) : Z :=
  (backoffDelay (STATE w) * 2 ^ (retryCount (STATE w) + 1 - 1))%Z.

Definition retry_world (w : World) : World :=
  mkWorld
    (mkState false (lastResult (STATE w)) None (retryCount (STATE w) + 1)
             (maxRetries (STATE w)) (backoffDelay (STATE w)))
    (sent w ++ [status ("Retrying in " ++ string_of_Z (ceil_seconds (code_delay w))
                        ++ "s...")])
    (timers w ++ [code_delay w]) (created w) (engine_plays w) (storage w)
    ((console w ++ [(error, "Speed test failed:")])
       ++ [(log, "Retrying test in " ++ string_of_Z (code_delay w) ++ "ms (attempt "
                 ++ string_of_Z (retryCount (STATE w) + 1) ++ "/"
                 ++ string_of_Z (maxRetries (STATE w)) ++ ")")]).

Definition terminal_world (info : ErrorInfo) (w : World) : World :=
  mkWorld
    (mkState false (lastResult (STATE w)) None 0
             (maxRetries (STATE w)) (backoffDelay (STATE w)))
    (sent w ++ [done_failure (type info) (userMessage info)])
    (timers w) (created w) (engine_plays w) (storage w)
    (console w ++ [(error, "Speed test failed:")]).

(** The world in which a retry awaits its backoff delay: a run was
    started and the engine failed with a network error. *)
Definition w_backoff : World :=
  run [(env_online, Message START_TEST);
       (env_online, EngineError (error_with_message (JString "Network request failed")))]
      initial_World.

Definition accepted : JSValue := JObject [("ok", JBool true)].

Definition network_failure : Env * Event :=
  (env_online, EngineError (error_with_message (JString "Network request failed"))).

Definition rate_limit_failure : Env * Event :=
  (env_online, EngineError (error_with_message (JString "HTTP 429: too many requests"))).

(** A store whose history already holds two valid entries. *)
Definition older_entry : JSValue :=
  JObject [("ts", JNumber 1600000000000%float); ("download", JNumber 80%float);
           ("upload", JNull); ("latency", JNull); ("jitter", JNull);
           ("units", JString "Mbps")].

Definition oldest_entry : JSValue :=
  JObject [("ts", JNumber 1500000000000%float); ("download", JNumber 10%float);
           ("upload", JNull); ("latency", JNull); ("jitter", JNull);
           ("units", JString "Mbps")].

Definition w_two_entries : World :=
  {| STATE := initial_STATE; sent := []; timers := []; created := 0%nat;
     engine_plays := 0%nat;
     storage := [("results", JArray [older_entry; oldest_entry])];
     console := [] |}.

(** What holds of STATE in every world the service worker reaches: the
    two constants keep their initial values and the retry count stays
    between 0 and the maximum. In particular the exponent of the backoff
    delay is never negative. *)
Definition well_configured (w : World) : Prop :=
  maxRetries (STATE w) = 3%Z /\
  backoffDelay (STATE w) = 1000%Z /\
  (0 <= retryCount (STATE w) <= 3)%Z.

(** The worlds [startCloudflareSpeedTest] leaves behind. [started]: the
    guards passed and the engine was started; [reported_offline]: the
    connectivity check failed; [start_failed]: its [catch] reported
    [info]. *)
Definition started (w : World) : World :=
  mkWorld
    (mkState true (lastResult (STATE w)) (Some (created w)) (retryCount (STATE w))
             (maxRetries (STATE w)) (backoffDelay (STATE w)))
    (sent w ++ [status "starting"]) (timers w) (S (created w))
    (S (engine_plays w)) (storage w) (console w).

Definition reported_offline (w : World) : World :=
  mkWorld (STATE w)
    (sent w ++ [done_failure "offline"
                  "No internet connection detected. Please check your connection."])
    (timers w) (created w) (engine_plays w) (storage w) (console w).

Definition start_failed (info : ErrorInfo) (w : World) : World :=
  mkWorld
    (mkState false (lastResult (STATE w)) None (retryCount (STATE w))
             (maxRetries (STATE w)) (backoffDelay (STATE w)))
    (sent w ++ [done_failure (type info) (userMessage info)])
    (timers w) (created w) (engine_plays w) (storage w)
    (console w ++ [(error, "Failed to start test:")]).

(** The classification of an error whose fields are absent or strings. *)
Definition classified (env : Env) (err : JSValue) : ErrorInfo :=
  classify (lowered (field_of err "message")) (lowered (field_of err "name"))
           (navigator_onLine env).

(** The world after [startCloudflareSpeedTest] from an idle, online
    world, following what the engine does at its start. *)
Definition start_world (env : Env) (w : World) : World :=
  match engine_play_throws env with
  | None => started w
  | Some thrown =>
      match get thrown "message" with
      | Normal m =>
          let rw := onError env (or_else m (JString "Failed to start speed test"))
                            (started w) in
          match fst rw with
          | Normal _ => snd rw
          | Throw e => start_failed (classified env e) (snd rw)
          end
      | Throw e => start_failed (classified env e) (started w)
      end
  end.

Definition start_result (env : Env) (w : World) : World :=
  if testRunning (STATE w) then w
  else if navigator_onLine env then start_world env w
  else reported_offline w.

(** The world with its [i]-th pending timer gone. *)
Definition timer_consumed (i : nat) (w : World) : World :=
  mkWorld (STATE w) (sent w) (remove_nth i (timers w)) (created w)
          (engine_plays w) (storage w) (console w).

(** The filter's verdict on an item, as a boolean. *)
Definition item_ok (item : JSValue) : bool :=
  match valid_item item with
  | Normal keep => keep
  | Throw _ => false
  end.


Definition timers_ok (w : World) : Prop :=
  Forall (fun delay => In delay [1000; 2000; 4000]%Z) (timers w).

Definition history_ok (w : World) : Prop :=
  history w = JUndefined \/
  exists entries,
    history w = JArray entries /\ (length entries <= 2)%nat /\
    Forall valid_entry entries.

(** An event that is an engine error carries an error whose [message]
    and [name] are absent or strings; an installation event carries a
    details object. *)
Definition well_typed (ev : AnyEvent) : Prop :=
  match ev with
  | Core (EngineError err) =>
      optional_string (field_of err "message")
      && optional_string (field_of err "name") = true
  | Installed _ details => nullish details = false
  | _ => True
  end.


Definition unknown_info : ErrorInfo :=
  {| type := "unknown"; userMessage := "Test failed. Please try again." |}.

Definition network_info : ErrorInfo :=
  {| type := "network";
     userMessage := "Network connection issue. Please check your internet connection." |}.

Definition is_object (v : JSValue) : bool :=
  match v with JObject _ => true | _ => false end.

Definition env_engine_throws (e : JSValue) : Env :=
  {| navigator_onLine := true; Date_now := 1700000000000%float;
     storage_get_fails := false; storage_set_fails := false;
     engine_play_throws := Some e |}.

Definition env_write_error : Env :=
  {| navigator_onLine := true; Date_now := 1700000000000%float;
     storage_get_fails := false; storage_set_fails := true;
     engine_play_throws := None |}.

Definition network_failure_event : Event :=
  EngineError (error_with_message (JString "Network request failed")).

Definition not_running : JSValue :=
  JObject [("ok", JBool false); ("reason", JString "not-running")].

Definition is_play (c : nat * WrapperInstance.EngineCall) : bool :=
  match snd c with WrapperInstance.Play => true | _ => false end.

(** The current engine is the one constructed last; every engine was
    played exactly once, in the order of construction; every call went
    to an engine that exists. *)
Definition instance_ok (inst : WrapperInstance.Instance) : Prop :=
  match WrapperInstance.engine inst with
  | None => True
  | Some n => S n = WrapperInstance.constructed inst
  end /\
  map fst (filter is_play (WrapperInstance.calls inst))
  = seq 0 (WrapperInstance.constructed inst) /\
  Forall (fun c => (fst c < WrapperInstance.constructed inst)%nat)
         (WrapperInstance.calls inst).

(** Messages of a given type. *)
Definition has_type (type : string) (m : JSValue) : bool :=
  strict_equals (field_of m "type") type.

Definition is_set (x : option float) : bool :=
  match x with Some _ => true | None => false end.

(** What the content script keeps true: it has seen a reading exactly
    when it holds a download figure; readings are only reported while
    it is active; once finished it has sent exactly one
    [FAST_SPEED_DONE], as its last message. *)
Definition script_ok (s : ContentScript.Script) : Prop :=
  ContentScript.sawAny s
  = is_set (ContentScript.download (ContentScript.metrics s)) /\
  exists updates,
    Forall (fun m => has_type "FAST_SPEED_UPDATE" m = true) updates /\
    if ContentScript.active s
    then ContentScript.outbox s = updates
    else exists done,
        has_type "FAST_SPEED_DONE" done = true /\
        ContentScript.outbox s = (updates ++ [done])%list.

Definition kept_set (before after : ContentScript.Metrics) : Prop :=
  (is_set (ContentScript.download before) = true ->
   is_set (ContentScript.download after) = true) /\
  (is_set (ContentScript.upload before) = true ->
   is_set (ContentScript.upload after) = true) /\
  (is_set (ContentScript.latency before) = true ->
   is_set (ContentScript.latency after) = true) /\
  (is_set (ContentScript.jitter before) = true ->
   is_set (ContentScript.jitter after) = true).

(* ================================================================== *)
(** ** The result validator *)

Section Validator.

Lemma valid_item_total (item : JSValue) :
  exists b, valid_item item = Normal b.
Proof.
  destruct item as [ | | b | f | s | elems | props ]; unfold valid_item; simpl;
    try (eexists; reflexivity).
  - destruct b; eexists; reflexivity.
  - destruct (negb (is_zero f || is_nan f)); eexists; reflexivity.
  - destruct (negb (s =? "")); eexists; reflexivity.
  - destruct (lookup "download" props); simpl; eexists; reflexivity.
Qed.

Lemma valid_item_sound (item : JSValue) :
  valid_item item = Normal true -> valid_entry item.
Proof.
  destruct item as [ | | b | f | s | elems | props ]; unfold valid_item; simpl;
    try discriminate.
  - destruct b; discriminate.
  - destruct (negb (is_zero f || is_nan f)); discriminate.
  - destruct (negb (s =? "")); discriminate.
  - destruct (lookup "download" props) as [ | | b | f | s | elems | props' ] eqn:E;
      simpl; try discriminate.
    intros H. injection H as H.
    repeat split; try discriminate.
    exists f. simpl. rewrite E. auto.
Qed.

Lemma filter_c_valid_item (l : list JSValue) :
  exists l', filter_c valid_item l = Normal l' /\ Forall valid_entry l'.
Proof.
  induction l as [ | x rest IH ].
  - exists []. split; [ reflexivity | constructor ].
  - destruct IH as [rest' [E F]].
    destruct (valid_item_total x) as [keep K].
    simpl. rewrite K, E. simpl.
    destruct keep.
    + exists (x :: rest'). split; [ reflexivity | ].
      constructor; [ apply valid_item_sound; assumption | assumption ].
    + exists rest'. split; [ reflexivity | assumption ].
Qed.

Lemma validate_body_results (data : JSValue) :
  validate_body data =
  match field_of data "results" with
  | JArray elems => filter_c valid_item elems
  | _ => Normal []
  end.
Proof.
  destruct data; reflexivity.
Qed.

Lemma validate_body_total (data : JSValue) :
  exists prev, validate_body data = Normal prev /\ Forall valid_entry prev /\
               (Array_isArray (field_of data "results") = false -> prev = []).
Proof.
  rewrite validate_body_results.
  destruct (field_of data "results") as [ | | b | f | s | elems | props ];
    try (exists []; repeat split; constructor).
  destruct (filter_c_valid_item elems) as [l' [E F]].
  exists l'. repeat split; try assumption. discriminate.
Qed.

End Validator.

(** C3: for every value handed to the read-side filter, the filter does
    not raise (its [try] body completes normally and the [catch] never
    runs), every element of the output is a non-null object whose
    [download] is a finite number, and when [data?.results] is not an
    array (absent, [undefined], [null], any non-array) the output is the
    empty sequence. *)
Theorem C3_read_filter_total_and_valid (data : JSValue) :
  validate_body data = Normal (fst (validate data)) /\
  snd (validate data) = false /\
  Forall valid_entry (fst (validate data)) /\
  (Array_isArray (field_of data "results") = false -> fst (validate data) = []).
Proof.
  destruct (validate_body_total data) as [prev [E [F N]]].
  unfold validate. rewrite E. simpl. auto.
Qed.

(* ================================================================== *)
(** ** Persistence *)

Section Persistence.

Lemma lookup_requested (key : string) (area : list (string * JSValue)) :
  lookup key (filter (fun kv => existsb (String.eqb (fst kv)) [key]) area)
  = lookup key area.
Proof.
  induction area as [ | [k v] rest IH ]; simpl; [ reflexivity | ].
  rewrite orb_false_r.
  destruct (k =? key) eqn:E; simpl; rewrite ?E; auto.
Qed.

Lemma lookup_storage_set (key : string) (v : JSValue) (w : World) :
  lookup key (storage (snd (storage_set key v w))) = v.
Proof.
  simpl. rewrite String.eqb_refl. reflexivity.
Qed.

Lemma validate_field (data : JSValue) :
  validate data = (sanitize (field_of data "results"), false).
Proof.
  unfold sanitize, validate.
  rewrite !validate_body_results. simpl.
  destruct (validate_body_total data) as [prev [E _]].
  rewrite validate_body_results in E. rewrite E. reflexivity.
Qed.

Lemma write_check (d : JSValue) :
  negb (typeof d =? "number") || negb (Number_isFinite d)
  = negb (Number_isFinite d).
Proof.
  destruct d; reflexivity.
Qed.

(** The write-side check fails: a warning, and nothing else. *)
Lemma persistResult_invalid (env : Env) (result : FinalResults) (w : World) :
  Number_isFinite (download result) = false ->
  persistResult env result w
  = (Normal tt, with_console w warn "Invalid result data, skipping persistence:").
Proof.
  intros H. unfold persistResult. rewrite write_check, H. reflexivity.
Qed.

(** The read fails: an error line, and nothing else. *)
Lemma persistResult_read_error (env : Env) (result : FinalResults) (w : World) :
  Number_isFinite (download result) = true ->
  storage_get_fails env = true ->
  persistResult env result w
  = (Normal tt, with_console w error "Storage read error:").
Proof.
  intros H G. unfold persistResult. rewrite write_check, H. simpl.
  unfold bind, storage_get. rewrite G. reflexivity.
Qed.

(** Read and write succeed: the new history is written. *)
Lemma persistResult_written (env : Env) (result : FinalResults) (w : World) :
  Number_isFinite (download result) = true ->
  storage_get_fails env = false ->
  storage_set_fails env = false ->
  persistResult env result w
  = storage_set "results"
      (JArray (firstn 2 (make_entry env result :: sanitize (history w)))) w.
Proof.
  intros H G S. unfold persistResult. rewrite write_check, H. simpl.
  unfold bind, storage_get. rewrite G, validate_field. simpl.
  rewrite S, lookup_requested. reflexivity.
Qed.

(** The write fails: an error line, and nothing else. *)
Lemma persistResult_write_error (env : Env) (result : FinalResults) (w : World) :
  Number_isFinite (download result) = true ->
  storage_get_fails env = false ->
  storage_set_fails env = true ->
  persistResult env result w
  = (Normal tt, with_console w error "Storage write error:").
Proof.
  intros H G S. unfold persistResult. rewrite write_check, H. simpl.
  unfold bind, storage_get. rewrite G, validate_field. simpl.
  rewrite S. reflexivity.
Qed.

(** [persistResult] always returns normally and never touches STATE,
    the messages, the timers or the engine. *)
Lemma persistResult_frame (env : Env) (result : FinalResults) (w : World) :
  fst (persistResult env result w) = Normal tt /\
  STATE (snd (persistResult env result w)) = STATE w /\
  sent (snd (persistResult env result w)) = sent w /\
  timers (snd (persistResult env result w)) = timers w /\
  engine_plays (snd (persistResult env result w)) = engine_plays w.
Proof.
  destruct (Number_isFinite (download result)) eqn:H;
    [ | rewrite (persistResult_invalid env result w H); repeat split ].
  destruct (storage_get_fails env) eqn:G;
    [ rewrite (persistResult_read_error env result w H G); repeat split | ].
  destruct (storage_set_fails env) eqn:S;
    [ rewrite (persistResult_write_error env result w H G S); repeat split | ].
  rewrite (persistResult_written env result w H G S). repeat split.
Qed.

Lemma sanitize_valid (raw : JSValue) : Forall valid_entry (sanitize raw).
Proof.
  unfold sanitize, validate.
  destruct (validate_body_total (JObject [("results", raw)])) as [prev [E [F _]]].
  rewrite E. exact F.
Qed.

End Persistence.

(** C5: after every successful persistence (the result passes the
    write-side check, the read and the write succeed) the stored history
    is an array of at most 2 valid entries whose first element is the
    new entry; it is the new entry followed by the sanitized previous
    history, cut to 2, so when the previous history holds two valid
    entries [a; b] the new history is [entry; a] and the oldest entry
    [b] is dropped. *)
Theorem C5_history_capped_newest_first
        (env : Env) (result : FinalResults) (w : World) :
  Number_isFinite (download result) = true ->
  storage_get_fails env = false ->
  storage_set_fails env = false ->
  exists next,
    history (snd (persistResult env result w)) = JArray next /\
    next = firstn 2 (make_entry env result :: sanitize (history w)) /\
    (length next <= 2)%nat /\
    hd_error next = Some (make_entry env result) /\
    Forall valid_entry next /\
    (forall a b,
        history w = JArray [a; b] ->
        valid_item a = Normal true -> valid_item b = Normal true ->
        next = [make_entry env result; a]).
Proof.
  intros H G S.
  exists (firstn 2 (make_entry env result :: sanitize (history w))).
  rewrite (persistResult_written env result w H G S).
  unfold history at 1. rewrite lookup_storage_set.
  split; [ reflexivity | ]. split; [ reflexivity | ].
  split; [ apply firstn_le_length | ].
  split; [ reflexivity | ].
  split.
  - assert (V : Forall valid_entry (make_entry env result :: sanitize (history w))).
    { constructor; [ | apply sanitize_valid ].
      destruct (download result) as [ | | b | f | s | elems | props ] eqn:D;
        simpl in H; try discriminate.
      repeat split; try discriminate.
      exists f. simpl. rewrite D. auto. }
    remember (make_entry env result :: sanitize (history w)) as l eqn:L.
    clear L. revert V. generalize 2%nat as n.
    induction l as [ | x l IH ]; intros n V; destruct n; simpl; try constructor.
    + inversion V; assumption.
    + apply IH. inversion V; assumption.
  - intros a b Hw Va Vb. rewrite Hw.
    unfold sanitize, validate, validate_body. simpl.
    rewrite Va, Vb. reflexivity.
Qed.

(** C7: when a completed run's result has a [download] that is not a
    finite number (NaN, an infinity, or any non-number), [onComplete]
    returns normally, the storage area - hence the stored history - is
    unchanged, and the only message sent on that path is the success
    message, which is not a [done:false] event; no retry is scheduled. *)
Theorem C7_invalid_result_not_persisted
        (env : Env) (result : FinalResults) (w : World) :
  Number_isFinite (download result) = false ->
  fst (onComplete env result w) = Normal tt /\
  storage (snd (onComplete env result w)) = storage w /\
  history (snd (onComplete env result w)) = history w /\
  sent (snd (onComplete env result w)) = (sent w ++ [done_success result])%list /\
  is_done false (done_success result) = false /\
  timers (snd (onComplete env result w)) = timers w.
Proof.
  intros H.
  assert (E : onComplete env result w
              = persistResult env result (completed env result w))
    by reflexivity.
  rewrite E, (persistResult_invalid env result _ H).
  repeat split.
Qed.

(** C10: when the engine's summary has a download figure that is absent
    or zero, the wrapper's completion payload has [download = null], and
    handling that completion leaves the storage area - hence the stored
    history - unchanged: the measurement never enters the history. *)
Theorem C10_zero_download_reported_null_and_dropped
        (env : Env) (summary : Summary) (w : World) :
  (s_download summary = None \/
   exists f, s_download summary = Some f /\ is_zero f = true) ->
  download (finalResults env summary) = JNull /\
  Number_isFinite (download (finalResults env summary)) = false /\
  fst (handle env (EngineFinish summary) w) = Normal None /\
  storage (snd (handle env (EngineFinish summary) w)) = storage w /\
  history (snd (handle env (EngineFinish summary) w)) = history w.
Proof.
  intros H.
  assert (D : download (finalResults env summary) = JNull).
  { simpl. destruct H as [H | [f [H Z]]]; rewrite H; simpl;
      [ reflexivity | rewrite Z; reflexivity ]. }
  assert (F : Number_isFinite (download (finalResults env summary)) = false)
    by (rewrite D; reflexivity).
  assert (E : handle env (EngineFinish summary) w
              = (persistResult env (finalResults env summary) ;; ret None)
                  (completed env (finalResults env summary) w))
    by reflexivity.
  rewrite E. unfold bind.
  rewrite (persistResult_invalid env _ _ F).
  repeat split; assumption.
Qed.

(** C8 as stated fails: with a failing read, an empty store and a valid
    result, the history afterwards is not the new entry alone - nothing
    was written at all. *)
Lemma C8_read_error_not_treated_as_empty :
  storage_get_fails env_read_error = true /\
  Number_isFinite (download (result_of_download (JNumber 50%float))) = true /\
  history (snd (persistResult env_read_error
                  (result_of_download (JNumber 50%float)) initial_World))
  = JUndefined /\
  ~ read_error_treated_as_empty env_read_error
      (result_of_download (JNumber 50%float)) initial_World.
Proof.
  repeat split. unfold read_error_treated_as_empty. vm_compute. discriminate.
Qed.

(** C8, amended: when the storage read fails during a persistence, the
    error is not propagated ([persistResult] returns normally and sends
    no message) and the persistence is abandoned: the storage area, the
    state, the timers and the messages are as before, for a valid result
    the only effect is the logged error line; the run itself is not
    aborted, its success message having been sent by [onComplete]. *)
Theorem C8_read_error_abandons_persistence
        (env : Env) (result : FinalResults) (w : World) :
  storage_get_fails env = true ->
  fst (persistResult env result w) = Normal tt /\
  storage (snd (persistResult env result w)) = storage w /\
  history (snd (persistResult env result w)) = history w /\
  sent (snd (persistResult env result w)) = sent w /\
  STATE (snd (persistResult env result w)) = STATE w /\
  timers (snd (persistResult env result w)) = timers w /\
  (Number_isFinite (download result) = true ->
   snd (persistResult env result w) = with_console w error "Storage read error:") /\
  fst (onComplete env result w) = Normal tt /\
  sent (snd (onComplete env result w)) = (sent w ++ [done_success result])%list /\
  storage (snd (onComplete env result w)) = storage w.
Proof.
  intros G.
  assert (E : onComplete env result w
              = persistResult env result (completed env result w))
    by reflexivity.
  rewrite E.
  destruct (Number_isFinite (download result)) eqn:H.
  - rewrite !(persistResult_read_error env result _ H G).
    repeat split.
  - rewrite !(persistResult_invalid env result _ H).
    repeat split. discriminate.
Qed.

(* ================================================================== *)
(** ** The error classifier *)

Section Classifier.



Lemma chain_toLowerCase_field (err : JSValue) (key : string) :
  chain_toLowerCase err key =
  if nullish (field_of err key) then Normal JUndefined
  else call_toLowerCase (field_of err key).
Proof.
  destruct err; reflexivity.
Qed.

(** [v?.toLowerCase() || ''] on an absent or string field. *)
Lemma lowered_ok (err : JSValue) (key : string) :
  optional_string (field_of err key) = true ->
  cbind (chain_toLowerCase err key)
        (fun m => as_string (or_else m (JString "")))
  = Normal (lowered (field_of err key)).
Proof.
  rewrite chain_toLowerCase_field.
  destruct (field_of err key) as [ | | b | f | s | elems | props ];
    simpl; try discriminate; try reflexivity.
  intros _. unfold or_else. simpl.
  destruct (toLowerCase s =? "") eqn:E; simpl; [ | reflexivity ].
  apply String.eqb_eq in E. rewrite E. reflexivity.
Qed.

(** ... and on a field holding anything else. *)
Lemma lowered_throws (err : JSValue) (key : string) :
  optional_string (field_of err key) = false ->
  chain_toLowerCase err key = Throw (TypeError "toLowerCase is not a function").
Proof.
  rewrite chain_toLowerCase_field.
  destruct (field_of err key); simpl; try discriminate; reflexivity.
Qed.

Lemma categorizeError_ok (env : Env) (err : JSValue) :
  optional_string (field_of err "message") = true ->
  optional_string (field_of err "name") = true ->
  categorizeError env err
  = Normal (classify (lowered (field_of err "message"))
                     (lowered (field_of err "name"))
                     (navigator_onLine env)).
Proof.
  intros Hm Hn. unfold categorizeError.
  pose proof (lowered_ok err "message" Hm) as Em.
  pose proof (lowered_ok err "name" Hn) as En.
  destruct (chain_toLowerCase err "message") as [ m | e ]; simpl in *;
    [ | discriminate ].
  rewrite Em. simpl.
  destruct (chain_toLowerCase err "name") as [ n | e ]; simpl in *;
    [ | discriminate ].
  rewrite En. reflexivity.
Qed.

Lemma categorizeError_throws (env : Env) (err : JSValue) :
  optional_string (field_of err "message")
  && optional_string (field_of err "name") = false ->
  categorizeError env err = Throw (TypeError "toLowerCase is not a function").
Proof.
  intros H. unfold categorizeError.
  destruct (optional_string (field_of err "message")) eqn:Hm.
  - simpl in H.
    pose proof (lowered_ok err "message" Hm) as Em.
    destruct (chain_toLowerCase err "message") as [ m | e ]; simpl in *;
      [ | discriminate ].
    rewrite Em. simpl.
    rewrite (lowered_throws err "name" H). reflexivity.
  - rewrite (lowered_throws err "message" Hm). reflexivity.
Qed.

Lemma classify_kinds (message name : string) (onLine : bool) :
  In (type (classify message name onLine))
     ["network"; "rate-limit"; "security"; "unknown"] /\
  userMessage (classify message name onLine)
  = message_table (type (classify message name onLine)).
Proof.
  unfold classify.
  repeat match goal with
         | |- context [ if ?c then _ else _ ] =>
             lazymatch c with
             | orb _ _ => destruct c
             end
         end; simpl; auto 6.
Qed.



End Classifier.



(** C9 as stated fails: a [message] that is a number is not nullish, so
    the optional chain goes on to call [toLowerCase], which a number
    does not have: the classifier throws. *)
Lemma C9_non_string_message_throws :
  categorizeError env_online (error_with_message (JNumber 42%float))
  = Throw (TypeError "toLowerCase is not a function") /\
  ~ (exists info,
        categorizeError env_online (error_with_message (JNumber 42%float))
        = Normal info).
Proof.
  split; [ reflexivity | ].
  intros [info H]. vm_compute in H. discriminate H.
Qed.

(** C9, amended: the classifier returns normally exactly when the
    [message] and [name] of its input are each absent, [undefined],
    [null] or a string - which holds for [null], [undefined], every
    primitive and every object lacking the fields; what it returns has a
    kind among network, rate-limit, security and unknown and the fixed,
    non-empty user message of that kind. When [message] or [name] holds
    any other value it throws a TypeError. *)
Theorem C9_classifier_total_on_optional_strings (env : Env) (err : JSValue) :
  ((exists info, categorizeError env err = Normal info) <->
   optional_string (field_of err "message")
   && optional_string (field_of err "name") = true) /\
  (forall info,
      categorizeError env err = Normal info ->
      In (type info) ["network"; "rate-limit"; "security"; "unknown"] /\
      userMessage info = message_table (type info) /\
      In (userMessage info)
         ["Network connection issue. Please check your internet connection.";
          "Too many requests. Please wait a moment and try again.";
          "Connection blocked. Please check your browser settings.";
          "Test failed. Please try again."] /\
      userMessage info <> "") /\
  (match err with JObject _ => False | _ => True end ->
   exists info, categorizeError env err = Normal info) /\
  (optional_string (field_of err "message")
   && optional_string (field_of err "name") = false ->
   categorizeError env err = Throw (TypeError "toLowerCase is not a function")).
Proof.
  assert (R : forall info,
             categorizeError env err = Normal info ->
             optional_string (field_of err "message")
             && optional_string (field_of err "name") = true).
  { intros info E.
    destruct (optional_string (field_of err "message")
              && optional_string (field_of err "name")) eqn:O; [ reflexivity | ].
    rewrite (categorizeError_throws env err O) in E. discriminate E. }
  split; [ split | split; [ | split ] ].
  - intros [info E]. exact (R info E).
  - intros O. apply andb_prop in O. destruct O as [Hm Hn].
    eexists. apply categorizeError_ok; assumption.
  - intros info E.
    pose proof (R info E) as O. apply andb_prop in O. destruct O as [Hm Hn].
    rewrite (categorizeError_ok env err Hm Hn) in E. injection E as E. subst info.
    destruct (classify_kinds (lowered (field_of err "message"))
                (lowered (field_of err "name")) (navigator_onLine env)) as [K T].
    split; [ exact K | ]. split; [ exact T | ].
    rewrite T. simpl in K.
    destruct K as [ K | [ K | [ K | [ K | [] ] ] ] ]; rewrite <- K; simpl;
      split; auto 6; discriminate.
  - intros P. destruct err; try contradiction;
      (eexists; apply categorizeError_ok; reflexivity).
  - apply categorizeError_throws.
Qed.

Lemma C9_classifier_total_on_optional_strings_witness :
  (exists info, categorizeError env_online JNull = Normal info) /\
  (exists info, categorizeError env_online (JObject []) = Normal info) /\
  categorizeError env_online (error_with_message (JBool false))
  = Throw (TypeError "toLowerCase is not a function").
Proof.
  destruct (C9_classifier_total_on_optional_strings env_online JNull)
    as [_ [_ [P _]]].
  destruct (C9_classifier_total_on_optional_strings env_online (JObject []))
    as [[_ O] _].
  destruct (C9_classifier_total_on_optional_strings env_online
              (error_with_message (JBool false))) as [_ [_ [_ T]]].
  split; [ apply P; exact I | ].
  split; [ apply O; reflexivity | apply T; reflexivity ].
Defined.

(* ================================================================== *)
(** ** The retry controller *)

Section Retry.

Lemma onError_classified (env : Env) (err : JSValue) (info : ErrorInfo) (w : World) :
  categorizeError env err = Normal info ->
  onError env err w
  = (Normal tt,
     if retryable (type info) && (retryCount (STATE w) <? maxRetries (STATE w))%Z
     then retry_world w
     else terminal_world info w).
Proof.
  intros E. unfold onError, bind, lift. simpl. rewrite E. simpl.
  unfold retryable.
  destruct (((type info =? "network") || (type info =? "rate-limit"))
            && (retryCount (STATE w) <? maxRetries (STATE w))%Z);
    reflexivity.
Qed.

Lemma onError_unclassified (env : Env) (err e : JSValue) (w : World) :
  categorizeError env err = Throw e ->
  onError env err w = (Throw e, failed w).
Proof.
  intros E. unfold onError, bind, lift. simpl. rewrite E. reflexivity.
Qed.



Lemma onError_well_configured (env : Env) (err : JSValue) (w : World) :
  well_configured w -> well_configured (snd (onError env err w)).
Proof.
  intros [Max [Base Range]].
  destruct (categorizeError env err) as [ info | e ] eqn:E.
  - rewrite (onError_classified env err info w E).
    destruct (retryable (type info)
              && (retryCount (STATE w) <? maxRetries (STATE w))%Z) eqn:R;
      try (apply andb_prop in R; destruct R as [_ L]; apply Z.ltb_lt in L);
      unfold well_configured; simpl; repeat split; try assumption; lia.
  - rewrite (onError_unclassified env err e w E).
    unfold well_configured; simpl; auto.
Qed.

End Retry.



(** C2: with [backoffDelay = 1000] and the maximum of 3, a retryable
    failure met at retry count [count] (0, 1 or 2) schedules the retry
    after exactly the specification's [1000 * 2^count] ms, the count
    being read before its increment: 1000, 2000 and 4000 ms for the
    first, second and third retry. *)
Theorem C2_backoff_delays
        (env : Env) (err : JSValue) (info : ErrorInfo) (w : World) (count : Z) :
  categorizeError env err = Normal info ->
  retryable (type info) = true ->
  backoffDelay (STATE w) = 1000%Z ->
  maxRetries (STATE w) = 3%Z ->
  retryCount (STATE w) = count ->
  (0 <= count < 3)%Z ->
  timers (snd (onError env err w)) = (timers w ++ [spec_delay 1000 count])%list /\
  retryCount (STATE (snd (onError env err w))) = (count + 1)%Z /\
  nth_error [1000; 2000; 4000]%Z (Z.to_nat count) = Some (spec_delay 1000 count).
Proof.
  intros E R B Max C Range.
  rewrite (onError_classified env err info w E), R, Max, C.
  assert (L : (count <? 3)%Z = true) by (apply Z.ltb_lt; lia).
  rewrite L. simpl. unfold code_delay, spec_delay. rewrite B, C.
  replace (count + 1 - 1)%Z with count by lia.
  split; [ reflexivity | ]. split; [ reflexivity | ].
  assert (D : count = 0%Z \/ count = 1%Z \/ count = 2%Z) by lia.
  destruct D as [ D | [ D | D ] ]; rewrite D; reflexivity.
Qed.

Lemma C2_backoff_delays_witness :
  timers (snd (onError env_online
                 (error_with_message (JString "Network request failed"))
                 initial_World)) = [1000%Z].
Proof.
  apply (C2_backoff_delays env_online
           (error_with_message (JString "Network request failed"))
           _ initial_World 0 eq_refl eq_refl eq_refl eq_refl eq_refl).
  lia.
Defined.

(* ================================================================== *)
(** ** The orchestrator's start guard *)

Section StartGuard.

Lemma categorizeError_cases (env : Env) (err : JSValue) :
  (exists info, categorizeError env err = Normal info) \/
  categorizeError env err = Throw (TypeError "toLowerCase is not a function").
Proof.
  destruct (optional_string (field_of err "message")
            && optional_string (field_of err "name")) eqn:O.
  - left. apply andb_prop in O. destruct O as [Hm Hn].
    eexists. apply categorizeError_ok; assumption.
  - right. apply categorizeError_throws. exact O.
Qed.

Lemma categorizeError_TypeError (env : Env) (msg : string) :
  exists info, categorizeError env (TypeError msg) = Normal info.
Proof.
  eexists. apply categorizeError_ok; reflexivity.
Qed.

(** [onError] never starts the engine, and what it may throw is the
    classifier's TypeError. *)
Lemma onError_outcome (env : Env) (err : JSValue) (w : World) :
  engine_plays (snd (onError env err w)) = engine_plays w /\
  (fst (onError env err w) = Normal tt \/
   fst (onError env err w) = Throw (TypeError "toLowerCase is not a function")).
Proof.
  destruct (categorizeError_cases env err) as [ [info E] | E ].
  - rewrite (onError_classified env err info w E).
    destruct (retryable (type info)
              && (retryCount (STATE w) <? maxRetries (STATE w))%Z);
      simpl; auto.
  - rewrite (onError_unclassified env err _ w E). simpl. auto.
Qed.

(** Started from idle while online, [startCloudflareSpeedTest]
    completes normally - whatever the engine throws is caught - and
    has started the engine exactly once. *)
Lemma start_from_idle (env : Env) (w : World) :
  testRunning (STATE w) = false ->
  navigator_onLine env = true ->
  exists w',
    startCloudflareSpeedTest env w = (Normal tt, w') /\
    engine_plays w' = S (engine_plays w) /\
    (well_configured w -> well_configured w').
Proof.
  intros Idle On.
  unfold startCloudflareSpeedTest, get_STATE, bind. simpl.
  rewrite Idle, On. simpl.
  unfold Wrapper.start, try_catch, bind, engine_play, lift. simpl.
  destruct (engine_play_throws env) as [ thrown | ]; simpl;
    [ | eexists;
      (split; [ reflexivity | split; [ reflexivity | intros C; exact C ] ]) ].
  destruct (get thrown "message") as [ m | e ] eqn:G; simpl.
  - match goal with
    | |- context [ onError env ?x ?w0 ] =>
        destruct (onError_outcome env x w0) as [P O];
        pose proof (onError_well_configured env x w0) as W;
        destruct (onError env x w0) as [r w1]
    end.
    simpl in P, O, W. destruct O as [ O | O ]; rewrite O; simpl;
      eexists; (split; [ reflexivity | split; [ exact P | ] ]);
      intros C; apply W; exact C.
  - destruct thrown; simpl in G; try discriminate G;
      injection G as G; subst e; simpl; eexists;
      (split; [ reflexivity | split; [ reflexivity | intros C; exact C ] ]).
Qed.

End StartGuard.




(** A timer that fires while a run is executing only disappears: the
    guard at the head of [startCloudflareSpeedTest] returns at once. *)
Lemma timer_fired_while_running (env : Env) (w : World) (i : nat) :
  testRunning (STATE w) = true ->
  fst (handle env (TimerFired i) w) = Normal None /\
  engine_plays (snd (handle env (TimerFired i) w)) = engine_plays w /\
  sent (snd (handle env (TimerFired i) w)) = sent w /\
  STATE (snd (handle env (TimerFired i) w)) = STATE w.
Proof.
  intros Running.
  assert (G : forall w0, testRunning (STATE w0) = true ->
                         startCloudflareSpeedTest env w0 = (Normal tt, w0)).
  { intros w0 R. unfold startCloudflareSpeedTest, bind, get_STATE.
    rewrite R. reflexivity. }
  unfold handle.
  destruct (i <? length (timers w))%nat; [ | repeat split ].
  unfold bind, set_timers. rewrite G by exact Running. repeat split.
Qed.

(* ================================================================== *)
(** ** Reachable worlds *)

Section Reachable.

Lemma well_configured_STATE (w w' : World) :
  STATE w' = STATE w -> well_configured w -> well_configured w'.
Proof.
  unfold well_configured. intros E. rewrite E. auto.
Qed.

Lemma onComplete_well_configured (env : Env) (result : FinalResults) (w : World) :
  well_configured w -> well_configured (snd (onComplete env result w)).
Proof.
  intros [Max [Base Range]].
  assert (E : onComplete env result w
              = persistResult env result (completed env result w))
    by reflexivity.
  rewrite E.
  apply (well_configured_STATE (completed env result w)).
  - apply persistResult_frame.
  - unfold well_configured. simpl. repeat split; try assumption; lia.
Qed.

Lemma start_well_configured (env : Env) (w : World) :
  well_configured w ->
  fst (startCloudflareSpeedTest env w) = Normal tt /\
  well_configured (snd (startCloudflareSpeedTest env w)).
Proof.
  intros C.
  destruct (testRunning (STATE w)) eqn:Running.
  - unfold startCloudflareSpeedTest, bind, get_STATE. rewrite Running.
    split; [ reflexivity | exact C ].
  - destruct (navigator_onLine env) eqn:On.
    + destruct (start_from_idle env w Running On) as [w' [E [_ K]]].
      rewrite E. split; [ reflexivity | exact (K C) ].
    + unfold startCloudflareSpeedTest, bind, get_STATE.
      rewrite Running, On. split; [ reflexivity | exact C ].
Qed.

Lemma onMessage_well_configured (env : Env) (message : JSValue) (w : World) :
  well_configured w -> well_configured (snd (onMessage env message w)).
Proof.
  intros C. unfold onMessage.
  destruct (negb (truthy message)); [ exact C | ].
  unfold bind at 1, lift.
  destruct (get message "type") as [ t | e ]; [ | exact C ].
  destruct (negb (truthy t)); [ exact C | ].
  destruct (strict_equals t "START_TEST").
  - unfold bind, get_STATE.
    destruct (testRunning (STATE w)); [ exact C | ].
    destruct (start_well_configured env w C) as [N K].
    destruct (startCloudflareSpeedTest env w) as [r w']. simpl in N, K.
    rewrite N. exact K.
  - destruct (strict_equals t "GET_TEST_STATE"); exact C.
Qed.

Lemma handle_well_configured (env : Env) (ev : Event) (w : World) :
  well_configured w -> well_configured (snd (handle env ev w)).
Proof.
  intros C. destruct ev as [ message | i | summary | err ].
  - apply onMessage_well_configured. exact C.
  - unfold handle. destruct (i <? length (timers w))%nat; [ | exact C ].
    unfold bind, set_timers.
    match goal with
    | |- context [ startCloudflareSpeedTest env ?w0 ] =>
        destruct (start_well_configured env w0 C) as [N K];
        destruct (startCloudflareSpeedTest env w0) as [r w']
    end.
    simpl in N, K. rewrite N. exact K.
  - unfold handle, engine_onFinish, bind.
    pose proof (onComplete_well_configured env (finalResults env summary) w C) as K.
    destruct (onComplete env (finalResults env summary) w) as [r w'].
    destruct r; exact K.
  - unfold handle, engine_onError, bind.
    pose proof (onError_well_configured env err w C) as K.
    destruct (onError env err w) as [r w'].
    destruct r; exact K.
Qed.

(** Whatever the events and the environment, the service worker keeps
    [maxRetries = 3], [backoffDelay = 1000] and [0 <= retryCount <= 3]. *)
Lemma reachable_well_configured (evs : list (Env * Event)) (w : World) :
  well_configured w -> well_configured (run evs w).
Proof.
  revert w. induction evs as [ | [env ev] rest IH ]; intros w C; simpl.
  - exact C.
  - apply IH. apply handle_well_configured. exact C.
Qed.

Lemma initial_well_configured : well_configured initial_World.
Proof.
  unfold well_configured. simpl. repeat split; lia.
Qed.

End Reachable.

(* ================================================================== *)
(** ** Scenarios *)

Example toLowerCase_ex :
  toLowerCase "HTTP 429: Too Many Requests" = "http 429: too many requests".
Proof. reflexivity. Qed.

(** Three network failures, each retried when its timer fires: the
    delays were 1000, 2000 and 4000 ms and no [done:false] was sent. *)
Example three_network_failures :
  let w := run [(env_online, Message START_TEST);
                network_failure; (env_online, TimerFired 0);
                network_failure; (env_online, TimerFired 0);
                network_failure] initial_World in
  timers w = [4000%Z] /\ retryCount (STATE w) = 3%Z /\
  existsb (is_done false) (sent w) = false /\
  console w = [(error, "Speed test failed:");
               (log, "Retrying test in 1000ms (attempt 1/3)");
               (error, "Speed test failed:");
               (log, "Retrying test in 2000ms (attempt 2/3)");
               (error, "Speed test failed:");
               (log, "Retrying test in 4000ms (attempt 3/3)")].
Proof. vm_compute. repeat split. Qed.

(** Four rate-limit failures: the fourth is reported, once, and the
    retry count is back to 0. *)
Example four_rate_limit_failures :
  let w := run [(env_online, Message START_TEST);
                rate_limit_failure; (env_online, TimerFired 0);
                rate_limit_failure; (env_online, TimerFired 0);
                rate_limit_failure; (env_online, TimerFired 0);
                rate_limit_failure] initial_World in
  filter (is_done false) (sent w)
  = [done_failure "rate-limit" "Too many requests. Please wait a moment and try again."] /\
  retryCount (STATE w) = 0%Z /\ timers w = [] /\ engine_plays w = 4%nat.
Proof. vm_compute. repeat split. Qed.

(** Three network failures, then a success: the retry count is back to
    0, no [done:false] was ever sent and the result is in the history. *)
Example three_failures_then_success :
  let w := run [(env_online, Message START_TEST);
                network_failure; (env_online, TimerFired 0);
                network_failure; (env_online, TimerFired 0);
                network_failure; (env_online, TimerFired 0);
                (env_online,
                 EngineFinish (mkSummary (Some 5e7%float) (Some 2e7%float)
                                         None None None None))]
               initial_World in
  retryCount (STATE w) = 0%Z /\ testRunning (STATE w) = false /\
  existsb (is_done false) (sent w) = false /\
  existsb (is_done true) (sent w) = true /\
  exists entry, history w = JArray [entry] /\
                field_of entry "download" = JNumber 50%float.
Proof. vm_compute. repeat split. eexists. split; reflexivity. Qed.

(** Two runs, then a third: the oldest entry leaves the history. *)
Example third_result_evicts_oldest :
  let finish d :=
      (env_online, EngineFinish (mkSummary (Some d) None None None None None)) in
  let w := run [(env_online, Message START_TEST); finish 5e7%float;
                (env_online, Message START_TEST); finish 6e7%float;
                (env_online, Message START_TEST); finish 7e7%float] initial_World in
  exists a b, history w = JArray [a; b] /\
              field_of a "download" = JNumber 70%float /\
              field_of b "download" = JNumber 60%float.
Proof. vm_compute. eexists. eexists. repeat split. Qed.

(* ================================================================== *)
(** ** Instances of the theorems *)

Lemma C3_read_filter_total_and_valid_witness :
  fst (validate (JObject [("results", JString "corrupt")])) = [].
Proof.
  apply (C3_read_filter_total_and_valid (JObject [("results", JString "corrupt")])).
  reflexivity.
Defined.

Lemma C5_history_capped_newest_first_witness :
  history (snd (persistResult env_online (result_of_download (JNumber 50%float))
                  w_two_entries))
  = JArray [make_entry env_online (result_of_download (JNumber 50%float));
            older_entry].
Proof.
  destruct (C5_history_capped_newest_first env_online
              (result_of_download (JNumber 50%float)) w_two_entries
              eq_refl eq_refl eq_refl) as [next [H [_ [_ [_ [_ Evict]]]]]].
  rewrite H. f_equal.
  apply (Evict older_entry oldest_entry); reflexivity.
Defined.

Lemma C7_invalid_result_not_persisted_witness :
  history (snd (onComplete env_online (result_of_download (JNumber nan))
                  w_two_entries))
  = history w_two_entries.
Proof.
  apply (C7_invalid_result_not_persisted env_online
           (result_of_download (JNumber nan)) w_two_entries).
  reflexivity.
Defined.

Lemma C8_read_error_abandons_persistence_witness :
  storage (snd (persistResult env_read_error
                  (result_of_download (JNumber 50%float)) w_two_entries))
  = storage w_two_entries.
Proof.
  apply (C8_read_error_abandons_persistence env_read_error
           (result_of_download (JNumber 50%float)) w_two_entries).
  reflexivity.
Defined.

Lemma C10_zero_download_reported_null_and_dropped_witness :
  download (finalResults env_online
              (mkSummary (Some 0%float) (Some 2e7%float) None None None None))
  = JNull.
Proof.
  apply (C10_zero_download_reported_null_and_dropped env_online
           (mkSummary (Some 0%float) (Some 2e7%float) None None None None)
           initial_World).
  right. exists 0%float. split; reflexivity.
Defined.

(* ================================================================== *)
(** ** The orchestrator, event by event *)

Section Orchestrator.

Lemma categorizeError_classified (env : Env) (err : JSValue) :
  optional_string (field_of err "message")
  && optional_string (field_of err "name") = true ->
  categorizeError env err = Normal (classified env err).
Proof.
  intros O. apply andb_prop in O. destruct O as [Hm Hn].
  apply categorizeError_ok; assumption.
Qed.

Lemma start_online (env : Env) (w : World) :
  testRunning (STATE w) = false ->
  navigator_onLine env = true ->
  startCloudflareSpeedTest env w = (Normal tt, start_world env w).
Proof.
  intros Idle On.
  unfold startCloudflareSpeedTest, get_STATE, bind. simpl.
  rewrite Idle, On. simpl.
  unfold Wrapper.start, try_catch, bind, engine_play, lift, start_world. simpl.
  fold (started w).
  destruct (engine_play_throws env) as [ thrown | ]; simpl; [ | reflexivity ].
  destruct (get thrown "message") as [ m | e ] eqn:G; simpl.
  - destruct (onError_outcome env (or_else m (JString "Failed to start speed test"))
                (started w)) as [_ O].
    destruct (onError env (or_else m (JString "Failed to start speed test"))
                (started w)) as [r w1].
    simpl in O. destruct O as [ O | O ]; rewrite O; reflexivity.
  - destruct thrown; simpl in G; try discriminate G;
      injection G as G; subst e; reflexivity.
Qed.

(** [startCloudflareSpeedTest] always returns normally. *)
Lemma start_eq (env : Env) (w : World) :
  startCloudflareSpeedTest env w = (Normal tt, start_result env w).
Proof.
  unfold start_result.
  destruct (testRunning (STATE w)) eqn:Running.
  - unfold startCloudflareSpeedTest, bind, get_STATE. rewrite Running. reflexivity.
  - destruct (navigator_onLine env) eqn:On.
    + apply start_online; assumption.
    + unfold startCloudflareSpeedTest, bind, get_STATE. rewrite Running, On.
      reflexivity.
Qed.

Lemma onMessage_eq (env : Env) (message : JSValue) (w : World) :
  onMessage env message w =
  if strict_equals (field_of message "type") "START_TEST"
  then if testRunning (STATE w)
       then (Normal (Some already_running), w)
       else (Normal (Some accepted), start_result env w)
  else if strict_equals (field_of message "type") "GET_TEST_STATE"
  then (Normal (Some (JObject [("running", JBool (testRunning (STATE w)));
                               ("lastResult", lastResult (STATE w))])), w)
  else (Normal None, w).
Proof.
  unfold onMessage.
  destruct message as [ | | b | f | s | elems | props ]; try reflexivity.
  - destruct b; reflexivity.
  - simpl. destruct (negb (is_zero f || is_nan f)); reflexivity.
  - simpl. destruct (negb (s =? "")); reflexivity.
  - simpl. unfold bind at 1, lift.
    destruct (lookup "type" props) as [ | | b | f | s | elems | props' ];
      try reflexivity.
    + destruct b; reflexivity.
    + simpl. destruct (negb (is_zero f || is_nan f)); reflexivity.
    + unfold truthy, strict_equals.
      destruct (s =? "START_TEST") eqn:S1.
      * apply String.eqb_eq in S1. subst s. simpl.
        unfold bind, get_STATE.
        destruct (testRunning (STATE w)); [ reflexivity | ].
        rewrite start_eq. reflexivity.
      * destruct (s =? "GET_TEST_STATE") eqn:S2.
        -- apply String.eqb_eq in S2. subst s. reflexivity.
        -- destruct (negb (s =? "")); reflexivity.
Qed.

Lemma timer_eq (env : Env) (i : nat) (w : World) :
  handle env (TimerFired i) w =
  if (i <? length (timers w))%nat
  then (Normal None, start_result env (timer_consumed i w))
  else (Normal None, w).
Proof.
  unfold handle. destruct (i <? length (timers w))%nat; [ | reflexivity ].
  unfold bind, set_timers. fold (timer_consumed i w).
  rewrite start_eq. reflexivity.
Qed.

Lemma onComplete_eq (env : Env) (result : FinalResults) (w : World) :
  onComplete env result w = persistResult env result (completed env result w).
Proof. reflexivity. Qed.

End Orchestrator.

(* ================================================================== *)
(** ** Invariants of the service worker *)

(** A property of worlds that the elementary effects of the handlers
    keep is kept by every event. *)
Section Invariant.

Variable Inv : World -> Prop.

Hypothesis Inv_started :
  forall w, Inv w -> testRunning (STATE w) = false -> Inv (started w).
Hypothesis Inv_failed : forall w, Inv w -> Inv (failed w).
Hypothesis Inv_retry :
  forall w, Inv w ->
            (retryCount (STATE w) < maxRetries (STATE w))%Z ->
            Inv (retry_world w).
Hypothesis Inv_terminal : forall info w, Inv w -> Inv (terminal_world info w).
Hypothesis Inv_start_failed : forall info w, Inv w -> Inv (start_failed info w).
Hypothesis Inv_completed :
  forall env result w, Inv w -> Inv (completed env result w).
Hypothesis Inv_console : forall w l text, Inv w -> Inv (with_console w l text).
Hypothesis Inv_sent : forall m w, Inv w -> Inv (snd (sendMessage m w)).
Hypothesis Inv_written :
  forall env result w,
    Inv w -> Number_isFinite (download result) = true ->
    Inv (snd (storage_set "results"
                (JArray (firstn 2 (make_entry env result :: sanitize (history w))))
                w)).
Hypothesis Inv_timer : forall i w, Inv w -> Inv (timer_consumed i w).
Hypothesis Inv_removed :
  forall w, Inv w -> Inv (snd (storage_remove ["testMode"] w)).

Lemma onError_keeps (env : Env) (err : JSValue) (w : World) :
  Inv w -> Inv (snd (onError env err w)).
Proof.
  intros H.
  destruct (categorizeError env err) as [ info | e ] eqn:E.
  - rewrite (onError_classified env err info w E).
    destruct (retryable (type info)
              && (retryCount (STATE w) <? maxRetries (STATE w))%Z) eqn:R; simpl.
    + apply Inv_retry; [ exact H | ].
      apply andb_prop in R. destruct R as [_ L]. apply Z.ltb_lt. exact L.
    + apply Inv_terminal. exact H.
  - rewrite (onError_unclassified env err e w E). apply Inv_failed. exact H.
Qed.

Lemma persistResult_keeps (env : Env) (result : FinalResults) (w : World) :
  Inv w -> Inv (snd (persistResult env result w)).
Proof.
  intros H.
  destruct (Number_isFinite (download result)) eqn:V;
    [ | rewrite (persistResult_invalid env result w V); apply Inv_console; exact H ].
  destruct (storage_get_fails env) eqn:G;
    [ rewrite (persistResult_read_error env result w V G);
      apply Inv_console; exact H | ].
  destruct (storage_set_fails env) eqn:S;
    [ rewrite (persistResult_write_error env result w V G S);
      apply Inv_console; exact H | ].
  rewrite (persistResult_written env result w V G S).
  apply Inv_written; assumption.
Qed.

Lemma start_keeps (env : Env) (w : World) :
  Inv w -> Inv (start_result env w).
Proof.
  intros H. unfold start_result.
  destruct (testRunning (STATE w)) eqn:Running; [ exact H | ].
  destruct (navigator_onLine env).
  - unfold start_world.
    pose proof (Inv_started w H Running) as Hs.
    destruct (engine_play_throws env) as [ thrown | ]; [ | exact Hs ].
    destruct (get thrown "message") as [ m | e ].
    + pose proof (onError_keeps env (or_else m (JString "Failed to start speed test"))
                    (started w) Hs) as K.
      cbv zeta.
      destruct (onError env (or_else m (JString "Failed to start speed test"))
                  (started w)) as [r w1].
      simpl in *. destruct r; [ exact K | apply Inv_start_failed; exact K ].
    + apply Inv_start_failed. exact Hs.
  - apply (Inv_sent _ w H).
Qed.

Lemma handle_keeps (env : Env) (ev : Event) (w : World) :
  Inv w -> Inv (snd (handle env ev w)).
Proof.
  intros H. destruct ev as [ message | i | summary | err ].
  - unfold handle. rewrite onMessage_eq.
    destruct (strict_equals (field_of message "type") "START_TEST").
    + destruct (testRunning (STATE w)); [ exact H | apply start_keeps; exact H ].
    + destruct (strict_equals (field_of message "type") "GET_TEST_STATE"); exact H.
  - rewrite timer_eq.
    destruct (i <? length (timers w))%nat; [ | exact H ].
    apply start_keeps. apply Inv_timer. exact H.
  - unfold handle, engine_onFinish, bind. rewrite onComplete_eq.
    pose proof (persistResult_keeps env (finalResults env summary)
                  (completed env (finalResults env summary) w)
                  (Inv_completed _ _ _ H)) as K.
    destruct (persistResult env (finalResults env summary)
                (completed env (finalResults env summary) w)) as [r w'].
    destruct r; exact K.
  - unfold handle, engine_onError, bind.
    pose proof (onError_keeps env err w H) as K.
    destruct (onError env err w) as [r w'].
    destruct r; exact K.
Qed.

Lemma onInstalled_keeps (remove_fails : bool) (details : JSValue) (w : World) :
  Inv w -> Inv (snd (onInstalled remove_fails details w)).
Proof.
  intros H. unfold onInstalled, bind, lift.
  destruct (get details "reason") as [ reason | e ]; [ | exact H ].
  simpl. destruct (strict_equals reason "update"); simpl.
  - destruct remove_fails; simpl.
    + apply (Inv_console (with_console w log "fastdotcom-extension installed:")).
      apply Inv_console. exact H.
    + apply (Inv_console
               (snd (storage_remove ["testMode"]
                       (with_console w log "fastdotcom-extension installed:")))).
      apply Inv_removed. apply Inv_console. exact H.
  - apply Inv_console. exact H.
Qed.

Lemma handle_any_keeps (env : Env) (ev : AnyEvent) (w : World) :
  Inv w -> Inv (snd (handle_any env ev w)).
Proof.
  intros H. destruct ev as [ ev | remove_fails details | data ].
  - apply handle_keeps. exact H.
  - unfold handle_any, bind.
    pose proof (onInstalled_keeps remove_fails details w H) as K.
    destruct (onInstalled remove_fails details w) as [r w'].
    destruct r; exact K.
  - apply (Inv_sent _ w H).
Qed.

Lemma run_any_keeps (evs : list (Env * AnyEvent)) (w : World) :
  Inv w -> Inv (run_any evs w).
Proof.
  revert w. induction evs as [ | [env ev] rest IH ]; intros w H; simpl.
  - exact H.
  - apply IH. apply handle_any_keeps. exact H.
Qed.

End Invariant.

Section InvariantLemmas.

Lemma Forall_remove_nth {A} (P : A -> Prop) (i : nat) (l : list A) :
  Forall P l -> Forall P (remove_nth i l).
Proof.
  revert i. induction l as [ | x l IH ]; intros i H; [ destruct i; exact H | ].
  inversion H; subst. destruct i; simpl; [ assumption | ].
  constructor; [ assumption | apply IH; assumption ].
Qed.

Lemma Forall_firstn {A} (P : A -> Prop) (n : nat) (l : list A) :
  Forall P l -> Forall P (firstn n l).
Proof.
  revert n. induction l as [ | x l IH ]; intros n H; destruct n; simpl;
    try constructor; inversion H; subst; auto.
Qed.

Lemma make_entry_valid (env : Env) (result : FinalResults) :
  Number_isFinite (download result) = true ->
  valid_entry (make_entry env result).
Proof.
  intros H.
  destruct (download result) as [ | | b | f | s | elems | props ] eqn:D;
    simpl in H; try discriminate.
  repeat split; try discriminate.
  exists f. simpl. rewrite D. auto.
Qed.

Lemma next_history_valid (env : Env) (result : FinalResults) (raw : JSValue) :
  Number_isFinite (download result) = true ->
  Forall valid_entry (firstn 2 (make_entry env result :: sanitize raw)) /\
  (length (firstn 2 (make_entry env result :: sanitize raw)) <= 2)%nat.
Proof.
  intros H. split; [ | apply firstn_le_length ].
  apply Forall_firstn. constructor;
    [ apply make_entry_valid; exact H | apply sanitize_valid ].
Qed.

Lemma lookup_removed (key : string) (area : list (string * JSValue)) :
  lookup key (filter (fun kv => negb (existsb (String.eqb (fst kv)) [key])) area)
  = JUndefined.
Proof.
  induction area as [ | [k v] rest IH ]; simpl; [ reflexivity | ].
  rewrite orb_false_r.
  destruct (k =? key) eqn:E; simpl; rewrite ?E; exact IH.
Qed.

Lemma lookup_not_removed (key other : string) (area : list (string * JSValue)) :
  other <> key ->
  lookup other (filter (fun kv => negb (existsb (String.eqb (fst kv)) [key])) area)
  = lookup other area.
Proof.
  intros N. induction area as [ | [k v] rest IH ]; simpl; [ reflexivity | ].
  rewrite orb_false_r.
  destruct (k =? key) eqn:E; simpl.
  - apply String.eqb_eq in E. subst k.
    assert (F : (key =? other) = false).
    { apply String.eqb_neq. intros C. apply N. symmetry. exact C. }
    rewrite F. exact IH.
  - destruct (k =? other); [ reflexivity | exact IH ].
Qed.

Lemma code_delay_values (w : World) :
  well_configured w ->
  (retryCount (STATE w) < maxRetries (STATE w))%Z ->
  In (code_delay w) [1000; 2000; 4000]%Z.
Proof.
  intros [Max [Base Range]] L. unfold code_delay. rewrite Base.
  rewrite Max in L.
  assert (D : retryCount (STATE w) = 0%Z \/ retryCount (STATE w) = 1%Z \/
              retryCount (STATE w) = 2%Z) by lia.
  destruct D as [ D | [ D | D ] ]; rewrite D; simpl; auto.
Qed.

End InvariantLemmas.

(** X1: whatever events arrive (messages, timers, engine callbacks,
    installation, progress) and whatever the browser does, a world that
    has [maxRetries = 3], [backoffDelay = 1000] and a retry count between
    0 and 3 keeps them: the retry count never leaves 0..3 and the two
    settings are never written. *)
Theorem X1_retry_state_stays_in_range (evs : list (Env * AnyEvent)) (w : World) :
  well_configured w -> well_configured (run_any evs w).
Proof.
  apply run_any_keeps;
    try (intros; unfold well_configured in *; simpl in *; intuition lia).
Qed.

Lemma X1_retry_state_stays_in_range_witness :
  well_configured
    (run_any [(env_online, Core (Message START_TEST));
              (env_online, Core network_failure_event);
              (env_offline, Core (TimerFired 0))] initial_World).
Proof.
  apply X1_retry_state_stays_in_range.
  unfold well_configured. simpl. repeat split; lia.
Defined.



(** X3: in every world reached from one with the initial settings whose
    pending retry delays are 1000, 2000 or 4000 ms, every pending retry
    delay is 1000, 2000 or 4000 ms: no other delay is ever scheduled. *)
Theorem X3_only_three_backoff_delays (evs : list (Env * AnyEvent)) (w : World) :
  well_configured w -> timers_ok w ->
  timers_ok (run_any evs w).
Proof.
  intros C T.
  assert (K : well_configured (run_any evs w) /\ timers_ok (run_any evs w)).
  { apply (run_any_keeps (fun w0 => well_configured w0 /\ timers_ok w0));
      [ | | | | | | | | | | | split; assumption ].
    - intros w0 [C0 T0] Idle. split; [ | exact T0 ].
      unfold well_configured in *; simpl in *; intuition lia.
    - intros w0 [C0 T0]. split; [ exact C0 | exact T0 ].
    - intros w0 [C0 T0] L. split.
      + unfold well_configured in *; simpl in *; intuition lia.
      + unfold timers_ok. simpl. apply Forall_app. split; [ exact T0 | ].
        constructor; [ apply code_delay_values; assumption | constructor ].
    - intros info w0 [C0 T0]. split; [ | exact T0 ].
      unfold well_configured in *; simpl in *; intuition lia.
    - intros info w0 [C0 T0]. split; [ exact C0 | exact T0 ].
    - intros env result w0 [C0 T0]. split; [ | exact T0 ].
      unfold well_configured in *; simpl in *; intuition lia.
    - intros w0 l text [C0 T0]. split; [ exact C0 | exact T0 ].
    - intros m w0 [C0 T0]. split; [ exact C0 | exact T0 ].
    - intros env result w0 [C0 T0] _. split; [ exact C0 | exact T0 ].
    - intros i w0 [C0 T0]. split; [ exact C0 | ].
      unfold timers_ok. simpl. apply Forall_remove_nth. exact T0.
    - intros w0 [C0 T0]. split; [ exact C0 | exact T0 ]. }
  apply K.
Qed.

Lemma X3_only_three_backoff_delays_witness :
  timers_ok
    (run_any [(env_online, Core (Message START_TEST));
              (env_online, Core network_failure_event);
              (env_online, Core (Message START_TEST));
              (env_online, Core network_failure_event)] initial_World).
Proof.
  apply X3_only_three_backoff_delays.
  - unfold well_configured. simpl. repeat split; lia.
  - constructor.
Defined.

(** X4: in every world reached from one whose stored history is absent
    or an array of at most 2 valid entries, the stored history is absent
    or an array of at most 2 valid entries. *)
Theorem X4_history_stays_short_and_valid (evs : list (Env * AnyEvent)) (w : World) :
  history_ok w -> history_ok (run_any evs w).
Proof.
  apply run_any_keeps; try (intros; assumption).
  - intros env result w0 _ V. right.
    destruct (next_history_valid env result (history w0) V) as [F L].
    eexists. unfold history. rewrite lookup_storage_set.
    split; [ reflexivity | split; assumption ].
  - intros w0 H.
    assert (E : history (snd (storage_remove ["testMode"] w0)) = history w0).
    { unfold history, storage_remove. cbn [snd storage].
      apply lookup_not_removed. discriminate. }
    unfold history_ok. rewrite E. exact H.
Qed.

Lemma X4_history_stays_short_and_valid_witness :
  history_ok
    (run_any [(env_online, Core (Message START_TEST));
              (env_online,
               Core (EngineFinish (mkSummary (Some 5e7%float) None None None None None)));
              (env_online, Installed false (JObject [("reason", JString "update")]))]
             w_two_entries).
Proof.
  apply X4_history_stays_short_and_valid.
  right. exists [older_entry; oldest_entry].
  split; [ reflexivity | ]. split; [ simpl; lia | ].
  repeat constructor; try discriminate;
    (eexists; split; reflexivity).
Defined.

(* ================================================================== *)
(** ** What the handlers do and never do *)

Section Handlers.

Lemma get_field_of (v : JSValue) (key : string) :
  nullish v = false -> get v key = Normal (field_of v key).
Proof.
  destruct v; simpl; try discriminate; reflexivity.
Qed.



Lemma onInstalled_frame (remove_fails : bool) (details : JSValue) (w : World) :
  STATE (snd (onInstalled remove_fails details w)) = STATE w /\
  sent (snd (onInstalled remove_fails details w)) = sent w /\
  timers (snd (onInstalled remove_fails details w)) = timers w /\
  engine_plays (snd (onInstalled remove_fails details w)) = engine_plays w.
Proof.
  unfold onInstalled, bind, lift.
  destruct (get details "reason") as [ reason | e ]; [ | repeat split ].
  simpl. destruct (strict_equals reason "update"); simpl; [ | repeat split ].
  destruct remove_fails; repeat split.
Qed.

End Handlers.

(** X5: no handler lets an exception escape, whatever the browser and
    the engine do - a throwing engine start included - provided an
    engine error carries a [message] and a [name] that are absent or
    strings and an installation event carries its details object. *)
Theorem X5_handlers_return_normally (env : Env) (ev : AnyEvent) (w : World) :
  well_typed ev ->
  exists response, fst (handle_any env ev w) = Normal response.
Proof.
  intros T. destruct ev as [ [ message | i | summary | err ] | rf details | data ].
  - unfold handle_any, handle. rewrite onMessage_eq.
    destruct (strict_equals (field_of message "type") "START_TEST");
      [ destruct (testRunning (STATE w)); eexists; reflexivity | ].
    destruct (strict_equals (field_of message "type") "GET_TEST_STATE");
      eexists; reflexivity.
  - unfold handle_any. rewrite timer_eq.
    destruct (i <? length (timers w))%nat; eexists; reflexivity.
  - unfold handle_any, handle, engine_onFinish, bind. rewrite onComplete_eq.
    destruct (persistResult_frame env (finalResults env summary)
                (completed env (finalResults env summary) w)) as [N _].
    destruct (persistResult env (finalResults env summary)
                (completed env (finalResults env summary) w)) as [r w'].
    simpl in N. rewrite N. eexists. reflexivity.
  - simpl in T. unfold handle_any, handle, engine_onError, bind.
    rewrite (onError_classified env err _ w (categorizeError_classified env err T)).
    eexists. reflexivity.
  - simpl in T. unfold handle_any, onInstalled, bind, lift.
    rewrite (get_field_of details "reason" T). simpl.
    destruct (strict_equals (field_of details "reason") "update"); simpl;
      [ destruct rf | ]; eexists; reflexivity.
  - eexists. reflexivity.
Qed.

Lemma X5_handlers_return_normally_witness :
  exists response,
    fst (handle_any (env_engine_throws JNull) (Core (Message START_TEST)) initial_World)
    = Normal response.
Proof.
  apply X5_handlers_return_normally. exact I.
Defined.


(** X7: every message whose [type] is not [START_TEST] - [null], a
    primitive, an object without a type, an unknown type, a state query -
    leaves the world exactly as it was; [sendResponse] is called only
    for a state query, with the current [testRunning] and [lastResult],
    and not at all otherwise. *)
Theorem X7_other_messages_change_nothing
        (env : Env) (message : JSValue) (w : World) :
  strict_equals (field_of message "type") "START_TEST" = false ->
  snd (onMessage env message w) = w /\
  fst (onMessage env message w)
  = if strict_equals (field_of message "type") "GET_TEST_STATE"
    then Normal (Some (JObject [("running", JBool (testRunning (STATE w)));
                                ("lastResult", lastResult (STATE w))]))
    else Normal None.
Proof.
  intros N. rewrite onMessage_eq, N.
  destruct (strict_equals (field_of message "type") "GET_TEST_STATE");
    split; reflexivity.
Qed.

Lemma X7_other_messages_change_nothing_witness :
  snd (onMessage env_online
         (JObject [("type", JString "FAST_SPEED_UPDATE"); ("download", JNumber 5%float)])
         w_backoff) = w_backoff.
Proof.
  apply X7_other_messages_change_nothing. reflexivity.
Defined.

(** X8: when a pending retry timer fires it is consumed, and then:
    while a run is executing nothing else happens; when idle and
    offline the worker reports [offline] and gives up without resetting
    the retry count; when idle and online with an engine that starts,
    a run starts with the retry count kept, so that the next failure
    waits twice as long. A timer that is not pending does nothing. *)
Theorem X8_retry_timer_firing (env : Env) (i : nat) (w : World) :
  ((length (timers w) <= i)%nat -> handle env (TimerFired i) w = (Normal None, w)) /\
  ((i < length (timers w))%nat ->
   (testRunning (STATE w) = true ->
    handle env (TimerFired i) w = (Normal None, timer_consumed i w)) /\
   (testRunning (STATE w) = false -> navigator_onLine env = false ->
    handle env (TimerFired i) w
    = (Normal None, reported_offline (timer_consumed i w)) /\
    retryCount (STATE (snd (handle env (TimerFired i) w))) = retryCount (STATE w) /\
    testRunning (STATE (snd (handle env (TimerFired i) w))) = false) /\
   (testRunning (STATE w) = false -> navigator_onLine env = true ->
    engine_play_throws env = None ->
    handle env (TimerFired i) w = (Normal None, started (timer_consumed i w)) /\
    retryCount (STATE (snd (handle env (TimerFired i) w))) = retryCount (STATE w) /\
    testRunning (STATE (snd (handle env (TimerFired i) w))) = true)).
Proof.
  rewrite timer_eq. split.
  - intros L. apply Nat.ltb_ge in L. rewrite L. reflexivity.
  - intros L. apply Nat.ltb_lt in L. rewrite L. unfold start_result. simpl.
    split; [ | split ].
    + intros R. rewrite R. reflexivity.
    + intros R Off. rewrite R, Off. repeat split. exact R.
    + intros R On E. rewrite R, On. unfold start_world. rewrite E. repeat split.
Qed.

Lemma X8_retry_timer_firing_witness :
  retryCount (STATE (snd (handle env_offline (TimerFired 0) w_backoff))) = 1%Z /\
  testRunning (STATE (snd (handle env_offline (TimerFired 0) w_backoff))) = false.
Proof.
  destruct (X8_retry_timer_firing env_offline 0 w_backoff) as [_ F].
  destruct F as [_ [Off _]]; [ simpl; lia | ].
  destruct Off as [_ [R T]]; [ reflexivity | reflexivity | ].
  split; [ exact R | exact T ].
Defined.

(** X15: an error that is not an object - a string, as the wrapper
    passes when the engine start throws, a number, a boolean, an array,
    [null] or [undefined] - has no readable [message] or [name]: it is
    classified by connectivity alone, [network] when offline and
    [unknown] when online, whatever its text. *)
Theorem X15_non_object_error_classified_by_connectivity
        (env : Env) (err : JSValue) :
  is_object err = false ->
  categorizeError env err
  = Normal (if navigator_onLine env then unknown_info else network_info).
Proof.
  intros N.
  assert (O : optional_string (field_of err "message")
              && optional_string (field_of err "name") = true)
    by (destruct err; try discriminate N; reflexivity).
  rewrite (categorizeError_classified env err O). unfold classified.
  assert (F : forall key, field_of err key = JUndefined)
    by (intros key; destruct err; try discriminate N; reflexivity).
  rewrite !F. destruct (navigator_onLine env); reflexivity.
Qed.

Lemma X15_non_object_error_classified_by_connectivity_witness :
  categorizeError env_online (JString "network timeout") = Normal unknown_info.
Proof.
  apply (X15_non_object_error_classified_by_connectivity env_online
           (JString "network timeout")).
  reflexivity.
Defined.

(** X9: when the engine throws at its start - while idle and online -
    a value that is not nullish and whose [message] is not an object
    (an Error with its string message, for instance), the wrapper hands
    the message text to [onError] as a string, so the failure is
    classified [unknown]: it is reported at once with the generic
    message, never retried whatever the text says, the retry count is
    reset and the worker is idle again. *)
Theorem X9_failed_engine_start_is_terminal
        (env : Env) (thrown : JSValue) (w : World) :
  testRunning (STATE w) = false ->
  navigator_onLine env = true ->
  engine_play_throws env = Some thrown ->
  nullish thrown = false ->
  is_object (field_of thrown "message") = false ->
  startCloudflareSpeedTest env w
  = (Normal tt, terminal_world unknown_info (started w)) /\
  sent (snd (startCloudflareSpeedTest env w))
  = ((sent w ++ [status "starting"])
       ++ [done_failure "unknown" "Test failed. Please try again."])%list /\
  timers (snd (startCloudflareSpeedTest env w)) = timers w /\
  retryCount (STATE (snd (startCloudflareSpeedTest env w))) = 0%Z /\
  testRunning (STATE (snd (startCloudflareSpeedTest env w))) = false.
Proof.
  intros Idle On T N M.
  assert (E : startCloudflareSpeedTest env w
              = (Normal tt, terminal_world unknown_info (started w))).
  { rewrite (start_online env w Idle On). unfold start_world.
    rewrite T, (get_field_of thrown "message" N). cbv zeta.
    assert (X : is_object (or_else (field_of thrown "message")
                             (JString "Failed to start speed test")) = false).
    { unfold or_else.
      destruct (truthy (field_of thrown "message")); [ exact M | reflexivity ]. }
    assert (C : categorizeError env
                  (or_else (field_of thrown "message")
                     (JString "Failed to start speed test"))
                = Normal unknown_info).
    { assert (O : optional_string
                    (field_of (or_else (field_of thrown "message")
                                 (JString "Failed to start speed test")) "message")
                  && optional_string
                       (field_of (or_else (field_of thrown "message")
                                    (JString "Failed to start speed test")) "name")
                  = true).
      { destruct (or_else (field_of thrown "message")
                    (JString "Failed to start speed test"));
          try discriminate X; reflexivity. }
      rewrite (categorizeError_classified env _ O). unfold classified.
      destruct (or_else (field_of thrown "message")
                  (JString "Failed to start speed test"));
        try discriminate X; simpl; rewrite On; reflexivity. }
    rewrite (onError_classified env _ unknown_info (started w) C).
    reflexivity. }
  rewrite E. repeat split.
Qed.

Lemma X9_failed_engine_start_is_terminal_witness :
  timers (snd (startCloudflareSpeedTest
                 (env_engine_throws (error_with_message (JString "network timeout")))
                 initial_World)) = [] /\
  sent (snd (startCloudflareSpeedTest
               (env_engine_throws (error_with_message (JString "network timeout")))
               initial_World))
  = [status "starting"; done_failure "unknown" "Test failed. Please try again."].
Proof.
  destruct (X9_failed_engine_start_is_terminal
              (env_engine_throws (error_with_message (JString "network timeout")))
              (error_with_message (JString "network timeout"))
              initial_World eq_refl eq_refl eq_refl eq_refl eq_refl)
    as [_ [S [T _]]].
  split; [ exact T | exact S ].
Defined.

(** X16: when the engine reports an error whose [message] or [name] is
    neither absent nor a string, the classifier's TypeError escapes
    [onError]: the run has already been marked over and the failure
    logged, but no message is sent, no retry is scheduled and the retry
    count is left as it was. *)
Theorem X16_unclassifiable_engine_error_escapes
        (env : Env) (err : JSValue) (w : World) :
  optional_string (field_of err "message")
  && optional_string (field_of err "name") = false ->
  handle env (EngineError err) w
  = (Throw (TypeError "toLowerCase is not a function"), failed w) /\
  sent (snd (handle env (EngineError err) w)) = sent w /\
  timers (snd (handle env (EngineError err) w)) = timers w /\
  retryCount (STATE (snd (handle env (EngineError err) w))) = retryCount (STATE w) /\
  testRunning (STATE (snd (handle env (EngineError err) w))) = false.
Proof.
  intros O.
  assert (E : handle env (EngineError err) w
              = (Throw (TypeError "toLowerCase is not a function"), failed w)).
  { unfold handle, engine_onError, bind.
    rewrite (onError_unclassified env err _ w (categorizeError_throws env err O)).
    reflexivity. }
  rewrite E. repeat split.
Qed.

Lemma X16_unclassifiable_engine_error_escapes_witness :
  sent (snd (handle env_online
               (EngineError (error_with_message (JNumber 503%float)))
               (snd (onMessage env_online START_TEST initial_World))))
  = [status "starting"].
Proof.
  apply (X16_unclassifiable_engine_error_escapes env_online
           (error_with_message (JNumber 503%float))
           (snd (onMessage env_online START_TEST initial_World))).
  reflexivity.
Defined.

(* ================================================================== *)
(** ** More on retries, persistence and the filter *)

Section FilterLemmas.

Lemma valid_item_complete (item : JSValue) :
  valid_entry item -> valid_item item = Normal true.
Proof.
  intros [T [N [f [G F]]]].
  destruct item as [ | | b | x | s | elems | props ]; simpl in T, G;
    try discriminate T; try discriminate G.
  injection G as G. unfold valid_item. simpl. rewrite G. simpl.
  rewrite F. reflexivity.
Qed.

Lemma item_ok_iff (item : JSValue) : item_ok item = true <-> valid_entry item.
Proof.
  unfold item_ok. split.
  - destruct (valid_item item) as [ keep | e ] eqn:V; [ | discriminate ].
    intros K. subst keep. apply valid_item_sound. exact V.
  - intros V. rewrite (valid_item_complete item V). reflexivity.
Qed.

Lemma filter_c_is_filter (l : list JSValue) :
  filter_c valid_item l = Normal (filter item_ok l).
Proof.
  induction l as [ | x rest IH ]; [ reflexivity | ].
  destruct (valid_item_total x) as [keep K].
  simpl. unfold item_ok. rewrite K, IH. simpl. destruct keep; reflexivity.
Qed.

Lemma sanitize_array (l : list JSValue) : sanitize (JArray l) = filter item_ok l.
Proof.
  unfold sanitize, validate, validate_body. simpl.
  rewrite filter_c_is_filter. reflexivity.
Qed.

Lemma sanitize_fixed (l : list JSValue) :
  Forall valid_entry l -> sanitize (JArray l) = l.
Proof.
  intros F. rewrite sanitize_array.
  induction F as [ | x l V F IH ]; [ reflexivity | ].
  simpl. apply item_ok_iff in V. rewrite V, IH. reflexivity.
Qed.

Lemma lower_char_idempotent (c : ascii) : lower_char (lower_char c) = lower_char c.
Proof.
  destruct c as [b0 b1 b2 b3 b4 b5 b6 b7].
  destruct b0, b1, b2, b3, b4, b5, b6, b7; reflexivity.
Qed.

Lemma toLowerCase_idempotent (s : string) :
  toLowerCase (toLowerCase s) = toLowerCase s.
Proof.
  induction s as [ | c s IH ]; [ reflexivity | ].
  simpl. rewrite lower_char_idempotent, IH. reflexivity.
Qed.

End FilterLemmas.



(** X11: when the storage write fails during a persistence, the error
    is logged and nothing else happens: [persistResult] returns
    normally, the storage area - hence the stored history - is as
    before and the new entry is dropped; the run's state and messages
    are untouched. *)
Theorem X11_write_error_drops_the_entry
        (env : Env) (result : FinalResults) (w : World) :
  Number_isFinite (download result) = true ->
  storage_get_fails env = false ->
  storage_set_fails env = true ->
  persistResult env result w
  = (Normal tt, with_console w error "Storage write error:") /\
  storage (snd (persistResult env result w)) = storage w /\
  history (snd (onComplete env result w)) = history w /\
  sent (snd (onComplete env result w)) = (sent w ++ [done_success result])%list.
Proof.
  intros V G S. rewrite onComplete_eq.
  rewrite !(persistResult_write_error env result _ V G S). repeat split.
Qed.

Lemma X11_write_error_drops_the_entry_witness :
  storage (snd (persistResult env_write_error
                  (result_of_download (JNumber 50%float)) w_two_entries))
  = storage w_two_entries.
Proof.
  apply (X11_write_error_drops_the_entry env_write_error
           (result_of_download (JNumber 50%float)) w_two_entries);
    reflexivity.
Defined.

(** X12: what a successful persistence writes passes the read-side
    filter unchanged when it is read back, and the filter is idempotent:
    applied to its own output it drops nothing. *)
Theorem X12_written_history_reads_back
        (env : Env) (result : FinalResults) (w : World) (raw : JSValue) :
  sanitize (JArray (sanitize raw)) = sanitize raw /\
  (Number_isFinite (download result) = true ->
   storage_get_fails env = false ->
   storage_set_fails env = false ->
   history (snd (persistResult env result w))
   = JArray (sanitize (history (snd (persistResult env result w)))) /\
   field_of (hd JUndefined (sanitize (history (snd (persistResult env result w)))))
            "download" = download result).
Proof.
  split.
  - apply sanitize_fixed. apply sanitize_valid.
  - intros V G S.
    rewrite (persistResult_written env result w V G S).
    assert (H : history (snd (storage_set "results"
                   (JArray (firstn 2 (make_entry env result :: sanitize (history w))))
                   w))
                = JArray (firstn 2 (make_entry env result :: sanitize (history w)))).
    { unfold history. apply lookup_storage_set. }
    rewrite H.
    destruct (next_history_valid env result (history w) V) as [F _].
    rewrite (sanitize_fixed _ F). split; reflexivity.
Qed.

Lemma X12_written_history_reads_back_witness :
  history (snd (persistResult env_online (result_of_download (JNumber 50%float))
                  w_two_entries))
  = JArray (sanitize (history (snd (persistResult env_online
                                      (result_of_download (JNumber 50%float))
                                      w_two_entries)))).
Proof.
  destruct (X12_written_history_reads_back env_online
              (result_of_download (JNumber 50%float)) w_two_entries JNull)
    as [_ R].
  apply R; reflexivity.
Defined.

(** X13: on an array the read-side filter keeps exactly the valid
    entries, in their order and with their repetitions: nothing valid is
    ever dropped and nothing is reordered. *)
Theorem X13_filter_keeps_exactly_the_valid (l : list JSValue) :
  sanitize (JArray l) = filter item_ok l /\
  (forall item, item_ok item = true <-> valid_entry item) /\
  (forall item, In item (sanitize (JArray l)) <-> In item l /\ valid_entry item).
Proof.
  split; [ apply sanitize_array | ].
  split; [ apply item_ok_iff | ].
  intros item. rewrite sanitize_array, filter_In, item_ok_iff. reflexivity.
Qed.

Lemma X13_filter_keeps_exactly_the_valid_witness :
  sanitize (JArray [JNull; older_entry; JString "x"; oldest_entry; JArray []])
  = [older_entry; oldest_entry].
Proof.
  destruct (X13_filter_keeps_exactly_the_valid
              [JNull; older_entry; JString "x"; oldest_entry; JArray []])
    as [E _].
  rewrite E. reflexivity.
Defined.

(** X14: the installation listener changes the storage area only on an
    [update] whose removal succeeds: then the legacy [testMode] key is
    gone and every other key - the stored history among them - reads as
    before. For any other reason, a failed removal or missing details
    the storage area is untouched. It never touches the run state, the
    messages or the timers. *)
Theorem X14_update_removes_only_testMode
        (remove_fails : bool) (details : JSValue) (w : World) :
  (strict_equals (field_of details "reason") "update" = true ->
   remove_fails = false ->
   lookup "testMode" (storage (snd (onInstalled remove_fails details w)))
   = JUndefined /\
   (forall key, key <> "testMode" ->
                lookup key (storage (snd (onInstalled remove_fails details w)))
                = lookup key (storage w)) /\
   history (snd (onInstalled remove_fails details w)) = history w) /\
  (strict_equals (field_of details "reason") "update" = false \/
   remove_fails = true ->
   storage (snd (onInstalled remove_fails details w)) = storage w) /\
  STATE (snd (onInstalled remove_fails details w)) = STATE w /\
  sent (snd (onInstalled remove_fails details w)) = sent w /\
  timers (snd (onInstalled remove_fails details w)) = timers w.
Proof.
  split; [ | split;
             [ | destruct (onInstalled_frame remove_fails details w)
                   as [F1 [F2 [F3 _]]]; auto ] ].
  - intros U R. subst remove_fails.
    assert (N : nullish details = false)
      by (destruct details; try discriminate U; reflexivity).
    unfold onInstalled, bind, lift.
    rewrite (get_field_of details "reason" N). simpl. rewrite U. simpl.
    split; [ apply lookup_removed | ].
    split; [ intros key K; apply lookup_not_removed; exact K | ].
    unfold history. simpl. apply lookup_not_removed. discriminate.
  - intros H. unfold onInstalled, bind, lift.
    destruct (nullish details) eqn:N.
    + destruct details; try discriminate N; reflexivity.
    + rewrite (get_field_of details "reason" N). simpl.
      destruct (strict_equals (field_of details "reason") "update") eqn:U;
        simpl; [ | reflexivity ].
      destruct H as [ H | H ]; [ discriminate H | ].
      subst remove_fails. reflexivity.
Qed.

Lemma X14_update_removes_only_testMode_witness :
  lookup "testMode"
    (storage (snd (onInstalled false (JObject [("reason", JString "update")])
                     (mkWorld initial_STATE [] [] 0 0
                              [("testMode", JString "fast");
                               ("results", JArray [older_entry])] []))))
  = JUndefined.
Proof.
  apply (X14_update_removes_only_testMode false
           (JObject [("reason", JString "update")])); reflexivity.
Defined.

(** X17: the classifier ignores letter case: an error and the same
    error with its [message] and [name] in lower case are classified
    alike. *)
Theorem X17_classification_ignores_case (env : Env) (message name : string) :
  categorizeError env
    (JObject [("message", JString message); ("name", JString name)])
  = categorizeError env
      (JObject [("message", JString (toLowerCase message));
                ("name", JString (toLowerCase name))]).
Proof.
  rewrite !categorizeError_ok by reflexivity. simpl.
  rewrite !toLowerCase_idempotent. reflexivity.
Qed.

(* ================================================================== *)
(** ** The wrapper instance *)

Module WI := WrapperInstance.

(** X18: [pause()] succeeds exactly when the instance has an engine and
    is running; it then calls the engine's [pause] once and clears the
    flag. Otherwise it answers [not-running] and changes nothing - so a
    second [pause()] in a row is always refused and calls nothing. *)
Theorem X18_pause_only_when_running (inst : WI.Instance) :
  (fst (WI.pause inst) = accepted <->
   WI.engine inst <> None /\ WI.isRunning inst = true) /\
  (fst (WI.pause inst) = accepted ->
   WI.isRunning (snd (WI.pause inst)) = false /\
   WI.engine (snd (WI.pause inst)) = WI.engine inst /\
   exists n, WI.engine inst = Some n /\
             WI.calls (snd (WI.pause inst)) = (WI.calls inst ++ [(n, WI.Pause)])%list) /\
  (fst (WI.pause inst) <> accepted ->
   WI.pause inst = (not_running, inst)) /\
  WI.pause (snd (WI.pause inst)) = (not_running, snd (WI.pause inst)).
Proof.
  unfold WI.pause.
  destruct inst as [ [ n | ] c [ | ] t l ]; simpl.
  - repeat split; try discriminate; try reflexivity.
    + eexists. split; reflexivity.
    + intros K. exfalso. apply K. reflexivity.
  - repeat split; try discriminate; try reflexivity.
    + intros [_ K]. discriminate K.
  - repeat split; try discriminate; try reflexivity.
    + intros [K _]. exfalso. apply K. reflexivity.
  - repeat split; try discriminate; try reflexivity.
    + intros [K _]. exfalso. apply K. reflexivity.
Qed.

Lemma X18_pause_only_when_running_witness :
  WI.pause (WI.onRunningChange true
              (WI.start_instance env_online WI.InPlay WI.createSpeedTest))
  = (accepted,
     WI.mkInstance (Some 0%nat) 1 false (JNumber (Date_now env_online))
                   [(0%nat, WI.Play); (0%nat, WI.Pause)]) /\
  WI.pause WI.createSpeedTest = (not_running, WI.createSpeedTest).
Proof.
  destruct (X18_pause_only_when_running WI.createSpeedTest) as [_ [_ [N _]]].
  split; [ reflexivity | ].
  apply N. discriminate.
Defined.

(** X19: [start()] is refused with [already-running], touching neither
    the instance nor the world, only once the engine has reported that
    it runs: [start()] does not set the flag itself. Two calls in a row
    on an idle instance whose engine starts both answer [ok], construct
    two engines and play both; with the engine's running notification
    in between, the second call is refused and constructs nothing. *)
Theorem X19_start_guard_needs_engine_notification
        (onError : JSValue -> M unit) (env : Env) (phase : WI.Phase)
        (inst : WI.Instance) (w : World) :
  (WI.isRunning inst = true ->
   fst (WI.start onError env phase inst) w = (Normal already_running, w) /\
   snd (WI.start onError env phase inst) = inst) /\
  (WI.isRunning inst = false ->
   engine_play_throws env = None ->
   WI.isRunning (snd (WI.start onError env phase inst)) = false /\
   fst (fst (WI.start onError env phase inst) w) = Normal accepted /\
   fst (fst (WI.start onError env phase (snd (WI.start onError env phase inst)))
            (snd (fst (WI.start onError env phase inst) w)))
   = Normal accepted /\
   engine_plays
     (snd (fst (WI.start onError env phase (snd (WI.start onError env phase inst)))
               (snd (fst (WI.start onError env phase inst) w))))
   = S (S (engine_plays w)) /\
   WI.constructed (snd (WI.start onError env phase
                          (snd (WI.start onError env phase inst))))
   = S (S (WI.constructed inst)) /\
   WI.start onError env phase
     (WI.onRunningChange true (snd (WI.start onError env phase inst)))
   = (fun w0 => (Normal already_running, w0),
      WI.onRunningChange true (snd (WI.start onError env phase inst)))).
Proof.
  split.
  - intros R. unfold WI.start, WI.start_instance, Wrapper.start.
    rewrite R. split; reflexivity.
  - intros R E.
    destruct inst as [ e c r t l ]. simpl in R. subst r.
    unfold WI.start, WI.start_instance, Wrapper.start, try_catch, bind,
      engine_play.
    simpl. rewrite E. simpl. rewrite ?E. simpl. repeat split.
Qed.

Lemma X19_start_guard_needs_engine_notification_witness :
  WI.constructed
    (snd (WI.start (ServiceWorker.onError env_online) env_online WI.InPlay
            (snd (WI.start (ServiceWorker.onError env_online) env_online WI.InPlay
                    WI.createSpeedTest)))) = 2%nat.
Proof.
  destruct (X19_start_guard_needs_engine_notification
              (ServiceWorker.onError env_online) env_online WI.InPlay
              WI.createSpeedTest initial_World) as [_ F].
  destruct F as [_ [_ [_ [_ [C _]]]]]; [ reflexivity | reflexivity | exact C ].
Defined.

Section InstanceInvariant.

Lemma act_keeps (a : WI.Action) (inst : WI.Instance) :
  instance_ok inst -> instance_ok (WI.act a inst).
Proof.
  intros [E [P F]].
  assert (P' : map fst (filter is_play
                          (WI.calls inst ++ [(WI.constructed inst, WI.Play)]))
               = seq 0 (S (WI.constructed inst))).
  { rewrite filter_app, map_app, P, seq_S. reflexivity. }
  assert (F' : Forall (fun c => (fst c < S (WI.constructed inst))%nat)
                      (WI.calls inst ++ [(WI.constructed inst, WI.Play)])).
  { apply Forall_app. split.
    - eapply Forall_impl; [ | exact F ]. cbv beta. intros c K. lia.
    - constructor; [ cbn [fst]; lia | constructor ]. }
  assert (Called : forall n call,
             WI.engine inst = Some n -> call <> WI.Play ->
             map fst (filter is_play (WI.calls inst ++ [(n, call)]))
             = seq 0 (WI.constructed inst) /\
             Forall (fun c => (fst c < WI.constructed inst)%nat)
                    (WI.calls inst ++ [(n, call)])).
  { intros n call En Np. rewrite En in E. split.
    - rewrite filter_app, map_app, P.
      destruct call; [ contradiction | | ]; apply app_nil_r.
    - apply Forall_app. split; [ exact F | ].
      constructor; [ cbn [fst]; lia | constructor ]. }
  assert (Same : forall r t,
             instance_ok (WI.mkInstance (WI.engine inst) (WI.constructed inst)
                                        r t (WI.calls inst))).
  { intros r t. unfold instance_ok. cbn [WI.engine WI.constructed WI.calls].
    split; [ exact E | split; [ exact P | exact F ] ]. }
  assert (Played : forall r t,
             instance_ok (WI.mkInstance (Some (WI.constructed inst))
                            (S (WI.constructed inst)) r t
                            (WI.calls inst ++ [(WI.constructed inst, WI.Play)]))).
  { intros r t. unfold instance_ok. cbn [WI.engine WI.constructed WI.calls].
    split; [ reflexivity | split; [ exact P' | exact F' ] ]. }
  assert (Start : forall env phase, instance_ok (WI.start_instance env phase inst)).
  { intros env phase. unfold WI.start_instance.
    destruct (WI.isRunning inst);
      [ unfold instance_ok; split; [ exact E | split; [ exact P | exact F ] ] | ].
    destruct (engine_play_throws env), phase;
      first [ apply Same | apply Played ]. }
  destruct a as [ env phase | | env phase | running | | ]; cbn [WI.act].
  - apply Start.
  - unfold WI.pause.
    destruct (WI.engine inst) as [ n | ] eqn:En;
      [ | cbn [snd]; unfold instance_ok; rewrite ?En;
          split; [ exact I | split; [ exact P | exact F ] ] ].
    destruct (WI.isRunning inst);
      [ | cbn [snd]; unfold instance_ok; rewrite ?En;
          split; [ exact E | split; [ exact P | exact F ] ] ].
    destruct (Called n WI.Pause eq_refl) as [P2 F2]; [ discriminate | ].
    cbn [snd]. unfold instance_ok. cbn [WI.engine WI.constructed WI.calls].
    rewrite ?En. split; [ exact E | split; [ exact P2 | exact F2 ] ].
  - unfold WI.restart_instance.
    destruct (WI.engine inst) as [ n | ] eqn:En.
    + destruct (Called n WI.Restart eq_refl) as [P2 F2]; [ discriminate | ].
      unfold instance_ok. cbn [WI.engine WI.constructed WI.calls].
      rewrite ?En. split; [ exact E | split; [ exact P2 | exact F2 ] ].
    + apply Start.
  - apply Same.
  - apply Same.
  - apply Same.
Qed.

End InstanceInvariant.

(** X20: whatever is done with a wrapper instance - starts, pauses,
    restarts, engine notifications, engine starts that throw - the
    current engine is the one constructed last, every constructed engine
    has been played exactly once, in the order of construction, and
    every [pause] and [restart] went to an engine that exists. *)
Theorem X20_engines_played_once_in_order (l : list WI.Action) :
  instance_ok (WI.acts l WI.createSpeedTest).
Proof.
  assert (G : forall inst, instance_ok inst -> instance_ok (WI.acts l inst)).
  { unfold WI.acts. induction l as [ | a l IH ]; intros inst H; simpl.
    - exact H.
    - apply IH. apply act_keeps. exact H. }
  apply G. unfold instance_ok. simpl. repeat split. constructor.
Qed.

(* ================================================================== *)
(** ** The content script *)

Module CS := ContentScript.

Section ContentScriptInvariant.

Lemma has_type_message (type : string) (m : CS.Metrics) (r : CS.Reading) :
  has_type type (CS.message type m r) = true.
Proof.
  unfold has_type, CS.message. simpl. rewrite !String.eqb_refl. reflexivity.
Qed.

Lemma finish_ok (r : CS.Reading) (s : CS.Script) :
  CS.active s = true -> script_ok s -> script_ok (CS.finish r s).
Proof.
  intros A [S [updates [U O]]]. rewrite A in O.
  split; [ exact S | ]. exists updates. split; [ exact U | ].
  cbn [CS.finish CS.active CS.outbox]. eexists. split.
  - apply (has_type_message "FAST_SPEED_DONE").
  - rewrite O. reflexivity.
Qed.

Lemma step_ok (c : CS.Callback) (s : CS.Script) :
  script_ok s -> script_ok (CS.step c s).
Proof.
  intros H. unfold CS.step.
  destruct (CS.active s) eqn:A; [ | exact H ].
  assert (Obs : forall r, script_ok (CS.observe r s)).
  { intros r. unfold CS.observe.
    destruct (CS.download (CS.current r)) as [ d | ]; [ | exact H ].
    destruct H as [S [updates [U O]]]. rewrite A in O.
    split.
    - cbn [CS.sawAny CS.metrics CS.download]. unfold CS.best.
      destruct (CS.download (CS.metrics s)) as [ k | ]; [ | reflexivity ].
      destruct (k <? d)%float; reflexivity.
    - exists (updates ++ [CS.message "FAST_SPEED_UPDATE" (CS.current r) r])%list.
      split.
      + apply Forall_app. split; [ exact U | ].
        constructor; [ apply (has_type_message "FAST_SPEED_UPDATE") | constructor ].
      + cbn [CS.active CS.outbox]. rewrite A, O. reflexivity. }
  destruct c as [ r | r | r | r ]; try apply Obs.
  - unfold CS.idleCheck.
    destruct (CS.sawAny s && (CS.MAX_IDLE_MS <=? CS.now r - CS.lastChangeTs s)%float);
      [ apply finish_ok; assumption | exact H ].
  - apply finish_ok; assumption.
Qed.

Lemma step_kept (c : CS.Callback) (s : CS.Script) :
  kept_set (CS.metrics s) (CS.metrics (CS.step c s)).
Proof.
  assert (Refl : kept_set (CS.metrics s) (CS.metrics s))
    by (repeat split; intros K; exact K).
  assert (Latest : forall kept fresh,
             is_set kept = true -> is_set (CS.latest kept fresh) = true).
  { intros kept fresh K. destruct fresh; [ reflexivity | exact K ]. }
  unfold CS.step. destruct (CS.active s); [ | exact Refl ].
  assert (Obs : forall r, kept_set (CS.metrics s) (CS.metrics (CS.observe r s))).
  { intros r. unfold CS.observe.
    destruct (CS.download (CS.current r)) as [ d | ]; [ | exact Refl ].
    cbn [CS.metrics]. unfold kept_set.
    cbn [CS.download CS.upload CS.latency CS.jitter].
    repeat split; try apply Latest.
    intros _. unfold CS.best.
    destruct (CS.download (CS.metrics s)) as [ k | ]; [ | reflexivity ].
    destruct (k <? d)%float; reflexivity. }
  destruct c as [ r | r | r | r ]; try apply Obs.
  - unfold CS.idleCheck.
    destruct (CS.sawAny s && (CS.MAX_IDLE_MS <=? CS.now r - CS.lastChangeTs s)%float);
      exact Refl.
  - exact Refl.
Qed.

End ContentScriptInvariant.

(** X21: whatever callbacks run on the content script, in any order,
    it has seen a reading exactly when it holds a download figure; while
    it is active it has sent only [FAST_SPEED_UPDATE] messages; and once
    it has finished it has sent exactly one [FAST_SPEED_DONE], as its
    last message - nothing is ever sent after it. *)
Theorem X21_one_done_and_it_is_last (l : list CS.Callback) (loaded_at : float) :
  script_ok (CS.steps l (CS.initial loaded_at)).
Proof.
  assert (G : forall s, script_ok s -> script_ok (CS.steps l s)).
  { unfold CS.steps. induction l as [ | c l IH ]; intros s H; simpl.
    - exact H.
    - apply IH. apply step_ok. exact H. }
  apply G. split; [ reflexivity | ].
  exists []. split; [ constructor | reflexivity ].
Qed.

(** X22: a figure the content script holds is never lost: whatever
    callbacks run, a metric that is set stays set (a [null] reading
    never overwrites it). *)
Theorem X22_metrics_never_reset (l : list CS.Callback) (s : CS.Script) :
  kept_set (CS.metrics s) (CS.metrics (CS.steps l s)).
Proof.
  unfold CS.steps. revert s. induction l as [ | c l IH ]; intros s; simpl.
  - repeat split; intros K; exact K.
  - destruct (step_kept c s) as [A1 [A2 [A3 A4]]].
    destruct (IH (CS.step c s)) as [B1 [B2 [B3 B4]]].
    repeat split; intros K; auto.
Qed.

(** X23: unless the hard stop fires, the content script finishes only
    after it has seen a download reading: the idle check never ends a
    page that has shown no speed yet, and a reading without a download
    figure does not count. *)
Theorem X23_idle_finish_needs_a_reading (l : list CS.Callback) (loaded_at : float) :
  Forall (fun c => match c with CS.HardStop _ => False | _ => True end) l ->
  CS.active (CS.steps l (CS.initial loaded_at)) = false ->
  CS.sawAny (CS.steps l (CS.initial loaded_at)) = true /\
  is_set (CS.download (CS.metrics (CS.steps l (CS.initial loaded_at)))) = true.
Proof.
  intros N.
  assert (G : forall s,
             (CS.active s = false -> CS.sawAny s = true) ->
             CS.active (CS.steps l s) = false -> CS.sawAny (CS.steps l s) = true).
  { unfold CS.steps. induction N as [ | c l C N IH ]; intros s H; simpl;
      [ exact H | ].
    apply IH. unfold CS.step.
    destruct (CS.active s) eqn:A; [ | intros _; apply H; reflexivity ].
    assert (Obs : forall r, CS.active (CS.observe r s) = false ->
                            CS.sawAny (CS.observe r s) = true).
    { intros r. unfold CS.observe.
      destruct (CS.download (CS.current r)); [ reflexivity | ].
      rewrite A. discriminate. }
    destruct c as [ r | r | r | r ]; try apply Obs; [ | contradiction ].
    unfold CS.idleCheck.
    destruct (CS.sawAny s) eqn:S; simpl.
    - destruct (CS.MAX_IDLE_MS <=? CS.now r - CS.lastChangeTs s)%float;
        intros _; [ exact S | exact S ].
    - rewrite A. discriminate. }
  intros A.
  pose proof (G (CS.initial loaded_at)) as K.
  assert (S : CS.sawAny (CS.steps l (CS.initial loaded_at)) = true).
  { apply K; [ discriminate | exact A ]. }
  split; [ exact S | ].
  assert (Ok : forall s, script_ok s -> script_ok (CS.steps l s)).
  { clear. unfold CS.steps. induction l as [ | c l IH ]; intros s H; simpl.
    - exact H.
    - apply IH. apply step_ok. exact H. }
  destruct (Ok (CS.initial loaded_at)) as [E _].
  { split; [ reflexivity | ]. exists []. split; [ constructor | reflexivity ]. }
  rewrite <- E. exact S.
Qed.

Lemma X23_idle_finish_needs_a_reading_witness :
  CS.sawAny
    (CS.steps [CS.Poll (CS.mkReading (CS.mkMetrics None (Some 3%float) None None)
                                     "Mbps" 1000%float);
               CS.Mutation (CS.mkReading (CS.mkMetrics (Some 94%float) None None None)
                                         "Mbps" 2000%float);
               CS.IdleTick (CS.mkReading (CS.mkMetrics (Some 94%float) None None None)
                                         "Mbps" 7000%float)]
              (CS.initial 0%float)) = true.
Proof.
  apply X23_idle_finish_needs_a_reading.
  - repeat constructor.
  - reflexivity.
Defined.
